(** * Altitude-bin discovery of make_fov: select_alt_groups.c

    A shallow embedding of [select_alt_groups] and [sort_expand_boundaries]
    (codebase/superdarn/src.bin/tk/tool/make_fov.1.0/select_alt_groups.c)
    and the properties of the altitude-bin specification checked on it.

    Numbers.  The C [float] and [double] values are embedded as exact
    rationals [Q]: rounding and the special values are left out, so a value
    divided by zero is whatever [Qdiv] gives.  The C [int] values are
    embedded as [Z] without wrap-around.  The concrete inputs used below are
    small integers and halves: on them the sums and products of the code
    are exact in binary floating point as well, and its divisions are
    either exact or only used through the integer they are truncated to,
    which rounding does not change.

    Memory.  An array is a list with the length it was allocated with; a
    read or write outside it stops the run with [OutOfBounds] (undefined
    behaviour in C).  [exit(1)] stops the run with [Exit] and the message
    printed before it. *)

From Stdlib Require Import String ZArith QArith Qround Qminmax Qabs.
From Stdlib Require Import Bool List Lia Lqa Permutation.
Import ListNotations.

Local Open Scope Z_scope.

(** ** Numbers *)

Module Num.

(** [(int)x] for a float [x]: truncation toward zero. *)
Definition int_of_float (x : Q) : Z := Z.quot (Qnum x) (Zpos (Qden x)).

(** [(float)n]. *)
Definition float_of_int (n : Z) : Q := inject_Z n.

(** [floor] and [ceil] of math.h. *)
Definition floor (x : Q) : Q := inject_Z (Qfloor x).
Definition ceil (x : Q) : Q := inject_Z (Qceiling x).

(** [(int)ceil(x)]. *)
Definition int_ceil (x : Q) : Z := Qceiling x.

(** The comparisons [<=] and [<] on floats. *)
Definition fle (x y : Q) : bool := Qle_bool x y.
Definition flt (x y : Q) : bool := negb (Qle_bool y x).

End Num.
Import Num.

(** ** Outcomes of a run *)

Inductive outcome (A : Type) : Type :=
| Done (a : A)                           (* the code ran to its end *)
| Exit (msg : string)                    (* fprintf(stderr, msg); exit(1) *)
| OutOfBounds (arr : string) (idx : Z)   (* access outside an array *)
| OutOfFuel.                             (* the loop budget ran out *)

Arguments Done {A} a.
Arguments Exit {A} msg.
Arguments OutOfBounds {A} arr idx.
Arguments OutOfFuel {A}.

Definition bind {A B : Type} (m : outcome A) (k : A -> outcome B) : outcome B :=
  match m with
  | Done a => k a
  | Exit msg => Exit msg
  | OutOfBounds arr idx => OutOfBounds arr idx
  | OutOfFuel => OutOfFuel
  end.

Notation "x <- m ;; k" := (bind m (fun x => k))
  (at level 61, m at next level, right associativity).
Notation "' p <- m ;; k" := (bind m (fun x => match x with p => k end))
  (at level 61, p pattern, m at next level, right associativity).

(** ** Arrays *)

Fixpoint upd {A : Type} (a : list A) (n : nat) (v : A) : list A :=
  match a, n with
  | [], _ => []
  | _ :: t, O => v :: t
  | h :: t, S n' => h :: upd t n' v
  end.

(** [a[i]] *)
Definition rd {A : Type} (name : string) (a : list A) (i : Z) : outcome A :=
  if i <? 0 then OutOfBounds name i
  else match nth_error a (Z.to_nat i) with
       | Some v => Done v
       | None => OutOfBounds name i
       end.

(** [a[i] = v] *)
Definition wr {A : Type} (name : string) (a : list A) (i : Z) (v : A)
  : outcome (list A) :=
  if (i <? 0) || (Z.of_nat (length a) <=? i) then OutOfBounds name i
  else Done (upd a (Z.to_nat i) v).

(** [calloc(n, ...)] *)
Definition calloc {A : Type} (zero : A) (n : Z) : list A := repeat zero (Z.to_nat n).

(** The indices [j, j+1, ..., j+n-1] a loop runs through. *)
Fixpoint indices (j : Z) (n : nat) : list Z :=
  match n with
  | O => []
  | S n' => j :: indices (j + 1) n'
  end.

(** ** The collaborators

    stat_utils.h, sort.h and mpfit.h are not part of the embedded file: the
    code is embedded over any implementation of them. *)

Class Collaborators : Type := {
  (** [histogram(num, vh, nbin, vh_min, vh_max, hist_bins, hist_edges)]:
      the counts and the left edges. *)
  histogram : list Q -> Z -> Q -> Q -> list Z * list Q;
  (** [int_argrelmax(nbin, hist_bins, order, clip, ismax)]: the number of
      maxima and the flags. *)
  int_argrelmax : Z -> list Z -> Z -> Z -> Z * list Z;
  (** [int_argabsmax(nbin, hist_bins)] *)
  int_argabsmax : Z -> list Z -> Z;
  (** [float_absmin(num, vh)] and [float_absmax(num, vh)] *)
  float_absmin : list Q -> Q;
  float_absmax : list Q -> Q;
  (** [smart_argsort_float(num, array, sortargs)] *)
  smart_argsort_float : Z -> list Q -> list Z;
  (** [mpfit(mult_gaussian_dev, nbin, 3, params, 0, config, private, result)]
      on [private = (x, y, y_error)]: the status and the fitted [params]. *)
  mpfit : Z -> list Q -> list Q -> list Q -> list Q -> Z * list Q
}.

(** ** sort_expand_boundaries *)

Module Reconciler.

(** The local arrays [new_mins], [new_maxs], [new_peaks], [priority] and
    the count [inew]. *)
Record locals : Type := Locals {
  new_mins : list Q;
  new_maxs : list Q;
  new_peaks : list Q;
  priority : list Z;
  inew : Z
}.

Definition capacity_msg : string := "exceeded new virtual height boundary limits".

(** The four stores at index [inew] followed by [inew++]. *)
Definition append (l : locals) (lo hi pk : Q) (pr : Z) : outcome locals :=
  m <- wr "new_mins" (new_mins l) (inew l) lo ;;
  x <- wr "new_maxs" (new_maxs l) (inew l) hi ;;
  p <- wr "new_peaks" (new_peaks l) (inew l) pk ;;
  q <- wr "priority" (priority l) (inew l) pr ;;
  Done (Locals m x p q (inew l + 1)).

(** [new_maxs[inew - 1] = v] *)
Definition set_last_max (l : locals) (v : Q) : outcome locals :=
  x <- wr "new_maxs" (new_maxs l) (inew l - 1) v ;;
  Done (Locals (new_mins l) x (new_peaks l) (priority l) (inew l)).

Section Body.

Variables (num max_vbin : Z) (local_min local_max vh_min vh_max vh_box : Q).

(** Lines 350-370: the lower-range fillers, [n] iterations left from
    index [i]. *)
Fixpoint lower_fill (vspan : Q) (n : nat) (i : Z) (l : locals) : outcome locals :=
  match n with
  | O => Done l
  | S n' =>
      let hmin := (local_min + float_of_int i * vspan)%Q in
      let hmin := if flt hmin local_min then local_min else hmin in
      l' <- append l (floor hmin) (ceil (hmin + vspan))
              (hmin + (1 # 2) * vspan)%Q (inew l + num) ;;
      if inew l' >=? max_vbin then Exit capacity_msg
      else lower_fill vspan n' (i + 1) l'
  end.

(** Lines 401-402: [while(hmin <= new_mins[inew - 1] && inew > 0) inew--;]
    The array is read before [inew > 0] is tested. *)
Fixpoint collapse (n : nat) (hmin : Q) (mins : list Q) (k : Z) : outcome Z :=
  v <- rd "new_mins" mins (k - 1) ;;
  if fle hmin v && (k >? 0) then
    match n with
    | O => OutOfFuel
    | S n' => collapse n' hmin mins (k - 1)
    end
  else Done k.

(** Lines 426-434: the bridging fillers of a gap, [n] iterations. *)
Fixpoint gap_fill (vspan : Q) (n : nat) (l : locals) : outcome locals :=
  match n with
  | O => Done l
  | S n' =>
      lo <- rd "new_maxs" (new_maxs l) (inew l - 1) ;;
      l' <- append l lo (ceil (lo + vspan)) (lo + (1 # 2) * vspan)%Q
              (inew l + num) ;;
      gap_fill vspan n' l'
  end.

(** Lines 377-461: the body of the candidate loop at index [i], before
    the capacity test.  It returns the value of [i] it leaves: the
    bridging loop of a gap counts with the same variable. *)
Definition merge_body (sortargs : list Z) (vh_mins vh_maxs vh_peaks : list Q)
  (i : Z) (l : locals) : outcome (Z * locals) :=
  s <- rd "sortargs" sortargs i ;;
  hmin <- rd "vh_mins" vh_mins s ;;
  if inew l >? 0 then
    last_max <- rd "new_maxs" (new_maxs l) (inew l - 1) ;;
    pk <- rd "vh_peaks" vh_peaks s ;;
    overlap <- (if fle pk last_max then Done true
                else last_pk <- rd "new_peaks" (new_peaks l) (inew l - 1) ;;
                     Done (fle hmin last_pk)) ;;
    if overlap : bool then
      pr <- rd "priority" (priority l) (inew l - 1) ;;
      if pr <? s then
        hi <- rd "vh_maxs" vh_maxs s ;;
        l' <- append l last_max (ceil hi)
                (last_max + (1 # 2) * (ceil hi - last_max))%Q (inew l + num) ;;
        Done (i, l')
      else
        k <- collapse (Z.to_nat (inew l)) hmin (new_mins l) (inew l) ;;
        let l' := Locals (new_mins l) (new_maxs l) (new_peaks l) (priority l) k in
        if k >? 0 then
          l'' <- set_last_max l' hmin ;; Done (i, l'')
        else Done (i, l')
    else if flt last_max hmin then
      let vnum := int_of_float ((hmin - last_max) / vh_box) in
      if vnum =? 0 then
        l' <- set_last_max l hmin ;; Done (i, l')
      else
        let vspan := ((hmin - last_max) / float_of_int vnum)%Q in
        l' <- gap_fill vspan (Z.to_nat vnum) l ;;
        Done (Z.max 0 vnum, l')
    else
      hi <- rd "vh_maxs" vh_maxs s ;;
      if flt hmin hi then
        l' <- append l hmin (ceil hi) pk s ;; Done (i, l')
      else Done (i, l)
  else
    hi <- rd "vh_maxs" vh_maxs s ;;
    if flt hmin hi then
      pk <- rd "vh_peaks" vh_peaks s ;;
      l' <- append l (floor hmin) (ceil hi) pk s ;; Done (i, l')
    else Done (i, l).

(** Lines 375-468: [for(i = 0; i < num; i++) { body; capacity test }],
    with a budget of [fuel] iterations. *)
Fixpoint merge_loop (sortargs : list Z) (vh_mins vh_maxs vh_peaks : list Q)
  (fuel : nat) (i : Z) (l : locals) : outcome locals :=
  if i <? num then
    match fuel with
    | O => OutOfFuel
    | S fuel' =>
        '(i', l') <- merge_body sortargs vh_mins vh_maxs vh_peaks i l ;;
        if inew l' >=? max_vbin then Exit capacity_msg
        else merge_loop sortargs vh_mins vh_maxs vh_peaks fuel' (i' + 1) l'
    end
  else Done l.

(** Lines 333-372: the regions below the lowest candidate. *)
Definition lower_range (sortargs : list Z) (vh_mins : list Q) (l : locals)
  : outcome (list Q * locals) :=
  s0 <- rd "sortargs" sortargs 0 ;;
  lo <- rd "vh_mins" vh_mins s0 ;;
  if flt local_min lo then
    let vnum := int_of_float ((lo - local_min) / vh_box) in
    if vnum =? 0 then
      let v := floor local_min in
      let v := if flt v vh_min then vh_min else v in
      vh_mins' <- wr "vh_mins" vh_mins s0 v ;;
      Done (vh_mins', l)
    else
      let vspan := ((lo - local_min) / float_of_int vnum)%Q in
      l' <- lower_fill vspan (Z.to_nat vnum) 0 l ;;
      Done (vh_mins, l')
  else Done (vh_mins, l).

(** Lines 486-498: the fillers above the last interval, at most [n] of
    them, while [new_maxs[inew - 1] < vh_max]. *)
Fixpoint upper_fill (vspan : Q) (n : nat) (l : locals) : outcome locals :=
  match n with
  | O => Done l
  | S n' =>
      last_max <- rd "new_maxs" (new_maxs l) (inew l - 1) ;;
      if flt last_max vh_max then
        let hmin := (last_max + vspan)%Q in
        let hmin := if flt vh_max hmin then vh_max else hmin in
        l' <- append l last_max (ceil hmin)
                ((1 # 2) * (hmin - last_max) + last_max)%Q (inew l + num) ;;
        upper_fill vspan n' l'
      else Done l
  end.

(** Lines 471-500: the regions above the last interval. *)
Definition upper_range (l : locals) : outcome locals :=
  above <- (if num =? 0 then Done true
            else last_max <- rd "new_maxs" (new_maxs l) (inew l - 1) ;;
                 Done (flt last_max local_max)) ;;
  if above : bool then
    last_max <- rd "new_maxs" (new_maxs l) (inew l - 1) ;;
    let vnum := int_of_float ((local_max - last_max) / vh_box) in
    if vnum =? 0 then
      l1 <- set_last_max l (ceil local_max) ;;
      if flt vh_max (ceil local_max) then set_last_max l1 vh_max else Done l1
    else
      let vspan := ((local_max - last_max) / float_of_int vnum)%Q in
      upper_fill vspan (Z.to_nat vnum) l
  else Done l.

(** Lines 503-508: the results are copied over the candidates. *)
Fixpoint copy_back (n : nat) (i : Z) (l : locals) (vh_mins vh_maxs vh_peaks : list Q)
  : outcome (list Q * list Q * list Q) :=
  match n with
  | O => Done (vh_mins, vh_maxs, vh_peaks)
  | S n' =>
      lo <- rd "new_mins" (new_mins l) i ;;
      vh_mins' <- wr "vh_mins" vh_mins i lo ;;
      hi <- rd "new_maxs" (new_maxs l) i ;;
      vh_maxs' <- wr "vh_maxs" vh_maxs i hi ;;
      pk <- rd "new_peaks" (new_peaks l) i ;;
      vh_peaks' <- wr "vh_peaks" vh_peaks i pk ;;
      copy_back n' (i + 1) l vh_mins' vh_maxs' vh_peaks'
  end.

(** The function: the count returned and the three arrays it leaves. *)
Definition sort_expand_boundaries {C : Collaborators} (fuel : nat)
  (vh_mins vh_maxs vh_peaks : list Q) : outcome (Z * (list Q * list Q * list Q)) :=
  if num =? 0 then Done (0, (vh_mins, vh_maxs, vh_peaks))
  else
    let l0 := Locals (calloc 0%Q max_vbin) (calloc 0%Q max_vbin)
                (calloc 0%Q max_vbin) (calloc 0 max_vbin) 0 in
    let sortargs := smart_argsort_float num vh_mins in
    '(vh_mins1, l1) <- lower_range sortargs vh_mins l0 ;;
    l2 <- merge_loop sortargs vh_mins1 vh_maxs vh_peaks fuel 0 l1 ;;
    l3 <- upper_range l2 ;;
    out <- copy_back (Z.to_nat (inew l3)) 0 l3 vh_mins1 vh_maxs vh_peaks ;;
    Done (inew l3, out).

(** [k] turns of the candidate loop from index [i]: the index and the
    locals they leave. *)
Fixpoint iterate (sortargs : list Z) (vh_mins vh_maxs vh_peaks : list Q)
  (k : nat) (i : Z) (l : locals) : outcome (Z * locals) :=
  match k with
  | O => Done (i, l)
  | S k' =>
      if i <? num then
        '(i', l') <- merge_body sortargs vh_mins vh_maxs vh_peaks i l ;;
        if inew l' >=? max_vbin then Exit capacity_msg
        else iterate sortargs vh_mins vh_maxs vh_peaks k' (i' + 1) l'
      else Done (i, l)
  end.

End Body.

End Reconciler.

(** ** select_alt_groups *)

Module Estimator.

Definition range_msg : string := "vheight range too small for a histogram analysis: ".
Definition width_msg : string := "suggested width created too many vheight bins".
Definition fits_msg : string := "histogram fits created too many vheight bins".

(** The histogram and its maxima, as lines 77-107 leave them. *)
Record maxima : Type := Maxima {
  nbin : Z;
  hist_bins : list Z;
  hist_edges : list Q;
  ismax : list Z;
  nmax : Z
}.

(** Lines 100-107, after [i = int_argabsmax(nbin, hist_bins)]:
    [if(ismax[i] == 0 && hist_bins[nmax] >= min_pnts) { ismax[nmax] = 1; nmax++; }] *)
Definition add_absolute_max (hist_bins ismax : list Z) (nmax i min_pnts : Z)
  : outcome (list Z * Z) :=
  flag <- rd "ismax" ismax i ;;
  significant <- (if flag =? 0
                  then c <- rd "hist_bins" hist_bins nmax ;; Done (c >=? min_pnts)
                  else Done false) ;;
  if significant : bool then
    ismax' <- wr "ismax" ismax nmax 1 ;;
    Done (ismax', nmax + 1)
  else Done (ismax, nmax).

Section Body.

Context {C : Collaborators}.
Variables (vh : list Q) (vh_min vh_max vh_box : Q) (min_pnts max_vbin : Z).

(** Lines 77-107. *)
Definition find_maxima : outcome maxima :=
  let nbin := int_of_float ((vh_max - vh_min) / (vh_box * (1 # 4))) in
  let nbin := if nbin >? 10 then 10 else nbin in
  if nbin <=? 0 then Exit range_msg
  else
    let '(hist_bins, hist_edges) := histogram vh nbin vh_min vh_max in
    let '(nmax, ismax) := int_argrelmax nbin hist_bins 2 1 in
    let i := int_argabsmax nbin hist_bins in
    '(ismax', nmax') <- add_absolute_max hist_bins ismax nmax i min_pnts ;;
    Done (Maxima nbin hist_bins hist_edges ismax' nmax').

(** Lines 125-130. *)
Fixpoint uniform_fill (vmin : Q) (n : nat) (i : Z) (vh_mins vh_maxs vh_peaks : list Q)
  : outcome (list Q * list Q * list Q) :=
  match n with
  | O => Done (vh_mins, vh_maxs, vh_peaks)
  | S n' =>
      let lo := (vmin + float_of_int i * vh_box)%Q in
      vh_mins' <- wr "vh_mins" vh_mins i lo ;;
      vh_maxs' <- wr "vh_maxs" vh_maxs i (lo + vh_box)%Q ;;
      vh_peaks' <- wr "vh_peaks" vh_peaks i (vmin + (1 # 2) * vh_box)%Q ;;
      uniform_fill vmin n' (i + 1) vh_mins' vh_maxs' vh_peaks'
  end.

(** Lines 116-130: the limits set from the suggested width when there
    is no maximum. *)
Definition uniform_limits (local_min local_max : Q) (vh_mins vh_maxs vh_peaks : list Q)
  : outcome (Z * (list Q * list Q * list Q)) :=
  let npeaks := int_ceil ((local_max - local_min) / vh_box) in
  let vmin := ((local_max - local_min) / float_of_int npeaks + local_min - vh_box)%Q in
  if npeaks >? max_vbin then Exit width_msg
  else
    out <- uniform_fill vmin (Z.to_nat npeaks) 0 vh_mins vh_maxs vh_peaks ;;
    Done (npeaks, out).

(** Lines 154-161: the bins flagged as maxima, [argmax] and [valmax].
    [valmax] comes from [malloc]; its entries are taken as zero before
    they are written. *)
Fixpoint collect_maxima (m : maxima) (n : nat) (i j : Z) (argmax valmax : list Z)
  : outcome (list Z * list Z) :=
  match n with
  | O => Done (argmax, valmax)
  | S n' =>
      if j <? nmax m then
        flag <- rd "ismax" (ismax m) i ;;
        if flag =? 1 then
          argmax' <- wr "argmax" argmax j i ;;
          c <- rd "hist_bins" (hist_bins m) i ;;
          valmax' <- wr "valmax" valmax j c ;;
          collect_maxima m n' (i + 1) (j + 1) argmax' valmax'
        else collect_maxima m n' (i + 1) j argmax valmax
      else Done (argmax, valmax)
  end.

(** Lines 171-176: [private->x] and [private->y]. *)
Fixpoint cast_bins (m : maxima) (hist_width : Q) (n : nat) (i : Z) (x y : list Q)
  : outcome (list Q * list Q) :=
  match n with
  | O => Done (x, y)
  | S n' =>
      e <- rd "hist_edges" (hist_edges m) i ;;
      x' <- wr "x" x i (e + hist_width)%Q ;;
      c <- rd "hist_bins" (hist_bins m) i ;;
      y' <- wr "y" y i (float_of_int c) ;;
      cast_bins m hist_width n' (i + 1) x' y'
  end.

(** Lines 182-187: the first guess of each Gaussian. *)
Fixpoint seed_params (x : list Q) (argmax valmax : list Z) (n : nat) (j : Z)
  (params : list Q) : outcome (list Q) :=
  match n with
  | O => Done params
  | S n' =>
      v <- rd "valmax" valmax j ;;
      p1 <- wr "params" params (1 + j * 3) (float_of_int v) ;;
      a <- rd "argmax" argmax j ;;
      c <- rd "x" x a ;;
      p2 <- wr "params" p1 (2 + j * 3) c ;;
      p3 <- wr "params" p2 (3 + j * 3) ((1 # 2) * vh_box)%Q ;;
      seed_params x argmax valmax n' (j + 1) p3
  end.

(** The clamped windows of lines 199-210 around centre [c] with width [sg]. *)
Definition clamp_low (v : Q) : Q := if flt v vh_min then vh_min else v.
Definition clamp_high (v : Q) : Q := if flt vh_max v then vh_max else v.

(** Lines 196-232: the fitted components kept as candidates. *)
Fixpoint accept_loop (params x : list Q) (argmax : list Z) (n : nat) (j npeaks : Z)
  (vh_mins vh_maxs vh_peaks : list Q) : outcome (Z * (list Q * list Q * list Q)) :=
  match n with
  | O => Done (npeaks, (vh_mins, vh_maxs, vh_peaks))
  | S n' =>
      c <- rd "params" params (2 + j * 3) ;;
      sg <- rd "params" params (3 + j * 3) ;;
      let vmin := clamp_low (c - 3 * sg)%Q in
      let vmax := clamp_high (c + 3 * sg)%Q in
      let vlow := clamp_low (c - 2 * sg)%Q in
      let vhigh := clamp_high (c + 2 * sg)%Q in
      a <- rd "argmax" argmax j ;;
      seed <- rd "x" x a ;;
      if fle vlow seed && fle seed vhigh then
        if npeaks >=? max_vbin then Exit fits_msg
        else
          vh_mins' <- wr "vh_mins" vh_mins npeaks vmin ;;
          vh_maxs' <- wr "vh_maxs" vh_maxs npeaks vmax ;;
          amp <- rd "params" params 1 ;;
          vh_peaks' <- wr "vh_peaks" vh_peaks npeaks amp ;;
          accept_loop params x argmax n' (j + 1) (npeaks + 1) vh_mins' vh_maxs' vh_peaks'
      else accept_loop params x argmax n' (j + 1) npeaks vh_mins vh_maxs vh_peaks
  end.

(** Lines 254-260: the limits after the first, while the maximum height
    is not reached. *)
Fixpoint refill (n : nat) (i : Z) (vh_mins vh_maxs vh_peaks : list Q)
  : outcome (Z * (list Q * list Q * list Q)) :=
  match n with
  | O => Done (i, (vh_mins, vh_maxs, vh_peaks))
  | S n' =>
      prev <- rd "vh_maxs" vh_maxs (i - 1) ;;
      if flt prev vh_max then
        vh_mins' <- wr "vh_mins" vh_mins i prev ;;
        let hi := clamp_high (prev + vh_box)%Q in
        vh_maxs' <- wr "vh_maxs" vh_maxs i hi ;;
        vh_peaks' <- wr "vh_peaks" vh_peaks i ((1 # 2) * (hi - prev) + prev)%Q ;;
        refill n' (i + 1) vh_mins' vh_maxs' vh_peaks'
      else Done (i, (vh_mins, vh_maxs, vh_peaks))
  end.

(** Lines 245-261: the limits set from the suggested width when no
    fitted component was kept.  Line 251 indexes with the [i] left by
    the loop of lines 171-176, which is [nbin]. *)
Definition refit_limits (i : Z) (local_min local_max : Q) (vh_mins vh_maxs vh_peaks : list Q)
  : outcome (Z * (list Q * list Q * list Q)) :=
  let j := int_ceil ((local_max - local_min) / vh_box) in
  let lo := clamp_low ((local_max - local_min) / float_of_int j + local_min - vh_box)%Q in
  vh_mins0 <- wr "vh_mins" vh_mins 0 lo ;;
  vh_maxs0 <- wr "vh_maxs" vh_maxs 0 (clamp_high (lo + vh_box)%Q) ;;
  hi_i <- rd "vh_maxs" vh_maxs0 i ;;
  lo_i <- rd "vh_mins" vh_mins0 i ;;
  vh_peaks0 <- wr "vh_peaks" vh_peaks i ((1 # 2) * (hi_i - lo_i) + lo_i)%Q ;;
  refill (Z.to_nat (j - 1)) 1 vh_mins0 vh_maxs0 vh_peaks0.

(** Lines 136-237: the fit, and the candidates it leaves in [vh_mins],
    [vh_maxs] and [vh_peaks]. *)
Definition fit_candidates (m : maxima) (vh_mins vh_maxs vh_peaks : list Q)
  : outcome (Z * (list Q * list Q * list Q)) :=
  '(argmax, valmax) <- collect_maxima m (Z.to_nat (nbin m)) 0 0
                         (calloc 0 (nmax m)) (calloc 0 (nmax m)) ;;
  hist_width <- (if nbin m >=? 1
                 then e1 <- rd "hist_edges" (hist_edges m) 1 ;;
                      e0 <- rd "hist_edges" (hist_edges m) 0 ;;
                      Done ((e1 - e0) / 2)%Q
                 else Done vh_box) ;;
  '(x, y) <- cast_bins m hist_width (Z.to_nat (nbin m)) 0
               (calloc 0%Q (nbin m)) (calloc 0%Q (nbin m)) ;;
  let y_error := calloc 1%Q (nbin m) in
  params0 <- wr "params" (calloc 0%Q (nmax m * 3 + 1)) 0 (float_of_int (nmax m)) ;;
  params1 <- seed_params x argmax valmax (Z.to_nat (nmax m)) 0 params0 ;;
  let '(status, params) := mpfit (nbin m) x y y_error params1 in
  if status >? 1
  then accept_loop params x argmax (Z.to_nat (nmax m)) 0 0 vh_mins vh_maxs vh_peaks
  else Done (0, (vh_mins, vh_maxs, vh_peaks)).

(** Lines 136-269: the fit and what follows it. *)
Definition fit_limits (fuel : nat) (m : maxima) (local_min local_max : Q)
  (vh_mins vh_maxs vh_peaks : list Q) : outcome (Z * (list Q * list Q * list Q)) :=
  '(npeaks, (vh_mins1, vh_maxs1, vh_peaks1)) <- fit_candidates m vh_mins vh_maxs vh_peaks ;;
  if npeaks =? 0 then
    refit_limits (nbin m) local_min local_max vh_mins1 vh_maxs1 vh_peaks1
  else
    Reconciler.sort_expand_boundaries npeaks max_vbin local_min local_max
      vh_min vh_max vh_box fuel vh_mins1 vh_maxs1 vh_peaks1.

(** The function: the count returned, [vh_mins] and [vh_maxs].  [num]
    is the length of [vh]; [vh_mins] and [vh_maxs] are the arrays of the
    caller. *)
Definition select_alt_groups (fuel : nat) (vh_mins vh_maxs : list Q)
  : outcome (Z * (list Q * list Q)) :=
  let vh_peaks := calloc 0%Q max_vbin in
  m <- find_maxima ;;
  let local_min := float_absmin vh in
  let local_max := float_absmax vh in
  '(npeaks, (vh_mins', vh_maxs', _)) <-
    (if nmax m =? 0
     then uniform_limits local_min local_max vh_mins vh_maxs vh_peaks
     else fit_limits fuel m local_min local_max vh_mins vh_maxs vh_peaks) ;;
  Done (npeaks, (vh_mins', vh_maxs')).

End Body.

End Estimator.

(** ** The collaborators of the specification *)

Module Spec.

(** Modelled from the spec: the stable value sort of sort.h, absent from
    the sources: "argsort(values) -> permutation indices, ascending,
    stable on ties".  Insertion of each index after the entries that are
    not greater. *)
Fixpoint insert_arg (v : Q) (k : Z) (l : list (Q * Z)) : list (Q * Z) :=
  match l with
  | [] => [(v, k)]
  | (w, j) :: t => if flt v w then (v, k) :: l else (w, j) :: insert_arg v k t
  end.

Fixpoint argsort_from (k : Z) (a : list Q) (acc : list (Q * Z)) : list (Q * Z) :=
  match a with
  | [] => acc
  | v :: t => argsort_from (k + 1) t (insert_arg v k acc)
  end.

Definition argsort (num : Z) (a : list Q) : list Z :=
  map snd (argsort_from 0 (firstn (Z.to_nat num) a) []).

(** The indices [0 .. n-1]. *)
Definition range (n : Z) : list Z := indices 0 (Z.to_nat n).

(** Modelled from the spec: the histogram builder of stat_utils.h, absent
    from the sources: "Equal-width bins spanning [lower, upper]; values
    outside range are excluded", with the counts and the left edges. *)
Definition in_bin (lower upper : Q) (nbin k : Z) (v : Q) : bool :=
  let w := ((upper - lower) / float_of_int nbin)%Q in
  fle (lower + float_of_int k * w) v
  && (if k =? nbin - 1 then fle v upper
      else flt v (lower + float_of_int (k + 1) * w)).

Definition hist (vh : list Q) (nbin : Z) (lower upper : Q) : list Z * list Q :=
  (map (fun k => Z.of_nat (List.length (filter (in_bin lower upper nbin k) vh))) (range nbin),
   map (fun k => (lower + float_of_int k * ((upper - lower) / float_of_int nbin))%Q)
     (range nbin)).

(** Modelled from the spec: the peak finder [int_argrelmax] of
    stat_utils.h, absent from the sources: a bin is flagged when its count
    exceeds every count within [order] bins on each side.  The comparison
    is strict, as the comment of lines 98-99 and the flat-distribution
    scenario of the specification have it: of two equal counts side by
    side neither is flagged. *)
Definition count_at (a : list Z) (k : Z) : Z := nth (Z.to_nat k) a 0.

Definition is_relmax (n : Z) (a : list Z) (order k : Z) : bool :=
  forallb (fun j =>
             (if k + j <? n then count_at a k >? count_at a (k + j) else true)
             && (if 0 <=? k - j then count_at a k >? count_at a (k - j) else true))
    (map (fun j => j + 1) (range order)).

Definition argrelmax (n : Z) (a : list Z) (order clip : Z) : Z * list Z :=
  let flags := map (fun k => if is_relmax n a order k then 1 else 0) (range n) in
  (Z.of_nat (List.length (filter (Z.eqb 1) flags)), flags).

(** Modelled from the spec: [int_argabsmax] of stat_utils.h, absent from
    the sources: "index of the single largest count (first occurrence on
    ties)". *)
Definition argabsmax (n : Z) (a : list Z) : Z :=
  fold_left (fun best k => if count_at a k >? count_at a best then k else best)
    (range n) 0.

(** Modelled from the spec: [float_absmin] and [float_absmax] of
    stat_utils.h, absent from the sources: "min(values)" and "max(values)"
    over the raw sample set.  The value is given in lowest terms. *)
Fixpoint extremum (pick : Q -> Q -> Q) (l : list Q) : option Q :=
  match l with
  | [] => None
  | v :: t => Some (match extremum pick t with
                    | None => v
                    | Some m => pick v m
                    end)
  end.

Definition absmin (l : list Q) : Q :=
  match extremum Qmin l with Some m => Qred m | None => 0%Q end.

Definition absmax (l : list Q) : Q :=
  match extremum Qmax l with Some m => Qred m | None => 0%Q end.

(** A run of the solver that does not converge: status 0, the parameters
    left as they were. *)
Definition mpfit_failed (nbin : Z) (x y y_error params : list Q) : Z * list Q :=
  (0, params).

(** A run of the solver that converges at once: status 2, the parameters
    left at the first guess. *)
Definition mpfit_at_guess (nbin : Z) (x y y_error params : list Q) : Z * list Q :=
  (2, params).

(** A run of the solver that ends with the given status and parameters. *)
Definition mpfit_returns (status : Z) (fit : list Q) (nbin : Z) (x y y_error params : list Q)
  : Z * list Q :=
  (status, fit).

Definition collaborators (fit : Z -> list Q -> list Q -> list Q -> list Q -> Z * list Q)
  : Collaborators := {|
  histogram := hist;
  int_argrelmax := argrelmax;
  int_argabsmax := argabsmax;
  float_absmin := absmin;
  float_absmax := absmax;
  smart_argsort_float := argsort;
  mpfit := fit
|}.

End Spec.

(** ** Notions used in the statements *)

(** The entry of an array at an [int] index. *)
Definition at_index {A : Type} (a : list A) (i : Z) : option A := nth_error a (Z.to_nat i).







(** Equality of two optional floats as values. *)
Definition same_value (a b : option Q) : Prop :=
  match a, b with
  | Some x, Some y => (x == y)%Q
  | None, None => True
  | _, _ => False
  end.

(** Component [j] after the fit: its centre [params[2 + 3j]], its width
    [params[3 + 3j]], and the centre [x[argmax[j]]] of the histogram bin
    that seeded it. *)
Definition fitted (params x : list Q) (argmax : list Z) (j : Z) : Q * Q * Q :=
  (nth (Z.to_nat (2 + j * 3)) params 0%Q,
   nth (Z.to_nat (3 + j * 3)) params 0%Q,
   nth (Z.to_nat (nth (Z.to_nat j) argmax 0)) x 0%Q).


(** The acceptance of the code: the centre of the seeding bin lies in the
    clamped 2-sigma window of the component. *)
Definition seed_in_window (vh_min vh_max : Q) (t : Q * Q * Q) : bool :=
  let '(c, sg, seed) := t in
  fle (Estimator.clamp_low vh_min (c - 2 * sg)%Q) seed
  && fle seed (Estimator.clamp_high vh_max (c + 2 * sg)%Q).




(** No overlap between an interval and the next. *)
Definition non_overlapping (count : Z) (mins maxs : list Q) : Prop :=
  forall i lo hi,
    0 <= i < count - 1 -> at_index maxs i = Some hi -> at_index mins (i + 1) = Some lo ->
    (hi <= lo)%Q.

(** The capacity rule of the specification: a result within [max_vbin], or
    the fatal capacity message. *)
Definition capacity_respected (max_vbin : Z)
  (result : outcome (Z * (list Q * list Q * list Q))) : Prop :=
  match result with
  | Done (count, _) => count <= max_vbin
  | Exit msg => msg = Reconciler.capacity_msg
  | _ => False
  end.

(** There is room for one more interval in the local arrays. *)
Definition room (l : Reconciler.locals) : Prop :=
  Reconciler.inew l < Z.of_nat (List.length (Reconciler.new_mins l))
  /\ Reconciler.inew l < Z.of_nat (List.length (Reconciler.new_maxs l))
  /\ Reconciler.inew l < Z.of_nat (List.length (Reconciler.new_peaks l))
  /\ Reconciler.inew l < Z.of_nat (List.length (Reconciler.priority l)).

(** The last interval is kept whole and an interval of filler priority is
    stored after it, from its upper bound to the rounded upper bound [hi]
    of the candidate. *)
Definition extend_after_last (num : Z) (l : Reconciler.locals) (last_max hi : Q)
  : Reconciler.locals :=
  let n := Z.to_nat (Reconciler.inew l) in
  Reconciler.Locals
    (upd (Reconciler.new_mins l) n last_max)
    (upd (Reconciler.new_maxs l) n (ceil hi))
    (upd (Reconciler.new_peaks l) n (last_max + (1 # 2) * (ceil hi - last_max))%Q)
    (upd (Reconciler.priority l) n (Reconciler.inew l + num))
    (Reconciler.inew l + 1).

(** Interval [k - 1] is the last stored interval that starts below [hmin]. *)
Definition last_below (hmin : Q) (l : Reconciler.locals) (k : Z) : Prop :=
  0 < k <= Reconciler.inew l
  /\ (exists v, at_index (Reconciler.new_mins l) (k - 1) = Some v /\ (v < hmin)%Q)
  /\ (forall k', k < k' <= Reconciler.inew l ->
        exists v', at_index (Reconciler.new_mins l) (k' - 1) = Some v' /\ (hmin <= v')%Q).

(** The stored intervals from index [k] on are dropped, interval [k - 1]
    ends at [hmin], and nothing is stored for the candidate. *)
Definition cut_back (l : Reconciler.locals) (k : Z) (hmin : Q) : Reconciler.locals :=
  Reconciler.Locals
    (Reconciler.new_mins l)
    (upd (Reconciler.new_maxs l) (Z.to_nat (k - 1)) hmin)
    (Reconciler.new_peaks l)
    (Reconciler.priority l)
    k.

(** Lines 100-107 as the specification has them: the bin [i] of the
    largest count is added when it is not flagged and its own count reaches
    [min_pnts]. *)
Definition absolute_max_added (hist_bins ismax : list Z) (nmax i min_pnts : Z)
  : outcome (list Z * Z) :=
  flag <- rd "ismax" ismax i ;;
  c <- rd "hist_bins" hist_bins i ;;
  if (flag =? 0) && (c >=? min_pnts) then
    ismax' <- wr "ismax" ismax i 1 ;;
    Done (ismax', nmax + 1)
  else Done (ismax, nmax).

(** ** Inputs of the examples *)

Module Example.

(** An array of [n] zeros, as the caller allocates the result arrays. *)
Definition zeros (n : nat) : list Q := repeat 0%Q n.

(** The candidates [l] at the start of an array of [n] entries. *)
Definition pad (n : nat) (l : list Q) : list Q := (l ++ repeat 0%Q (n - List.length l))%list.


(** The centres of the ten histogram bins of [50, 250]. *)
Definition bin_centres : list Q :=
  [60; 80; 100; 120; 140; 160; 180; 200; 220; 240]%Q.


(** Two components seeded by bins 0 and 3 that the fit left near their
    seeds. *)
Definition near_fit : list Q := [2; 5; 62; 5; 3; 118; 4]%Q.

(** The local arrays of ten entries with the first [n] given. *)
Definition stored (mins maxs peaks : list Q) (prios : list Z) : Reconciler.locals :=
  Reconciler.Locals (pad 10 mins) (pad 10 maxs) (pad 10 peaks)
    (prios ++ repeat 0 (10 - List.length prios))%list
    (Z.of_nat (List.length mins)).

(** Five heights in each of the bins 2 and 3 of [50, 250]. *)
Definition twin_heights : list Q :=
  [95; 95; 95; 95; 95; 115; 115; 115; 115; 115]%Q.

(** The collaborators of the specification with a solver that fails. *)
Definition unfitted : Collaborators := Spec.collaborators Spec.mpfit_failed.

(** The collaborators of the specification with a solver that converges
    at the first guess. *)
Definition at_guess : Collaborators := Spec.collaborators Spec.mpfit_at_guess.

(** The collaborators of the specification with a solver that returns
    three Gaussians of width 40 centred on their seeds 122.5, 167.5 and
    212.5. *)
Definition broad_fit : Collaborators :=
  Spec.collaborators
    (Spec.mpfit_returns 2 [3; 2; 245 # 2; 40; 2; 335 # 2; 40; 2; 425 # 2; 40]%Q).

(** Heights with a single histogram maximum in the bin [210, 230) of
    [50, 250], the lowest at 100. *)
Definition high_peak_heights : list Q :=
  [100; 135; 140; 175; 180; 185; 215; 220; 222; 225]%Q.

(** Heights with a single histogram maximum in the bin [90, 110) of
    [50, 250], the highest at 215. *)
Definition low_peak_heights : list Q :=
  [95; 98; 100; 105; 135; 140; 145; 175; 180; 215]%Q.

(** Heights with maxima in the bins 0, 3, 6 and 9 of [50, 210]: 110 at 58
    and one each at 106, 154 and 202. *)
Definition crowded_heights : list Q := (repeat 58%Q 110 ++ [106; 154; 202]%Q)%list.

(** Heights with maxima in the bins 1, 4 and 7 of [100, 250]. *)
Definition three_peak_heights : list Q := [120; 125; 165; 170; 210; 215]%Q.

End Example.

(** ** Notions used in the further properties *)







(** The count of bin [k]. *)
Definition count_of (m : Estimator.maxima) (k : Z) : Z :=
  nth (Z.to_nat k) (Estimator.hist_bins m) 0.

(** [a] with its entries from index [j] on overwritten by [l]. *)
Definition overwrite {A : Type} (a : list A) (j : nat) (l : list A) : list A :=
  (firstn j a ++ l ++ skipn (j + List.length l) a)%list.

(** The first guess of Gaussian [j]: the count of its bin, the centre of
    its bin, half the suggested width. *)
Definition first_guess (vh_box : Q) (x : list Q) (argmax valmax : list Z) (j : Z)
  : list Q :=
  [inject_Z (nth (Z.to_nat j) valmax 0);
   nth (Z.to_nat (nth (Z.to_nat j) argmax 0)) x 0%Q;
   ((1 # 2) * vh_box)%Q].

(** The four local arrays hold at least [n] entries each. *)
Definition holds (n : Z) (l : Reconciler.locals) : Prop :=
  n <= Z.of_nat (List.length (Reconciler.new_mins l))
  /\ n <= Z.of_nat (List.length (Reconciler.new_maxs l))
  /\ n <= Z.of_nat (List.length (Reconciler.new_peaks l))
  /\ n <= Z.of_nat (List.length (Reconciler.priority l)).

(** The entries below [n] of the bounds and priorities of [l'] are those
    of [l]. *)
Definition same_below (n : Z) (l l' : Reconciler.locals) : Prop :=
  forall k, 0 <= k < n ->
    at_index (Reconciler.new_mins l') k = at_index (Reconciler.new_mins l) k
    /\ at_index (Reconciler.new_maxs l') k = at_index (Reconciler.new_maxs l) k
    /\ at_index (Reconciler.priority l') k = at_index (Reconciler.priority l) k.






(** The turn of the candidate loop for a candidate [hmin, hi] of index [s]
    that is stored as it is after the intervals of [l]: one interval more,
    from [hmin] to [ceil hi] with the priority [s], the earlier intervals
    as they were, the last of them still ending at [last_max]. *)
Definition stored_as_is (l : Reconciler.locals) (i s : Z) (hmin hi last_max : Q)
  (result : outcome (Z * Reconciler.locals)) : Prop :=
  exists l',
    result = Done (i, l')
    /\ Reconciler.inew l' = Reconciler.inew l + 1
    /\ same_below (Reconciler.inew l) l l'
    /\ at_index (Reconciler.new_maxs l') (Reconciler.inew l - 1) = Some last_max
    /\ at_index (Reconciler.new_mins l') (Reconciler.inew l) = Some hmin
    /\ at_index (Reconciler.new_maxs l') (Reconciler.inew l) = Some (ceil hi)
    /\ at_index (Reconciler.priority l') (Reconciler.inew l) = Some s
    /\ ((hmin < last_max)%Q ->
        ~ non_overlapping (Reconciler.inew l')
            (Reconciler.new_mins l') (Reconciler.new_maxs l')).




(** The arrays left by lines 503-508: the first [n] entries are those of
    the local arrays, the others are untouched. *)
Definition copied (n : Z) (l : Reconciler.locals) (vh_mins vh_maxs vh_peaks : list Q)
  (result : outcome (list Q * list Q * list Q)) : Prop :=
  exists mins maxs peaks,
    result = Done (mins, maxs, peaks)
    /\ (forall k, 0 <= k < n ->
          at_index mins k = at_index (Reconciler.new_mins l) k
          /\ at_index maxs k = at_index (Reconciler.new_maxs l) k
          /\ at_index peaks k = at_index (Reconciler.new_peaks l) k)
    /\ (forall k, n <= k ->
          at_index mins k = at_index vh_mins k
          /\ at_index maxs k = at_index vh_maxs k
          /\ at_index peaks k = at_index vh_peaks k).

(** ** Inputs of the further examples *)

Module Example2.

(** The heights of the three-cluster scenario. *)
Definition cluster_heights : list Q :=
  [100; 100; 101; 102; 150; 151; 149; 150; 200; 201; 199]%Q.

(** The local arrays as lines 321-325 leave them. *)
Definition fresh (max_vbin : Z) : Reconciler.locals :=
  Reconciler.Locals (calloc 0%Q max_vbin) (calloc 0%Q max_vbin) (calloc 0%Q max_vbin)
    (calloc 0 max_vbin) 0.

(** The local arrays after the candidate [100, 110] with peak 105 has been
    stored as the first interval. *)
Definition one_stored : Reconciler.locals :=
  Reconciler.Locals (Example.pad 10 [100%Q]) (Example.pad 10 [110%Q])
    (Example.pad 10 [105%Q]) (calloc 0 10) 1.

(** A histogram of four bins over [0, 40] with maxima flagged at bins 1
    and 3. *)
Definition two_maxima : Estimator.maxima :=
  Estimator.Maxima 4 [1; 5; 2; 6] [0; 10; 20; 30; 40]%Q [0; 1; 0; 1] 2.

End Example2.

(** ** Facts about arrays *)

Lemma upd_length {A : Type} (a : list A) (n : nat) (v : A) :
  List.length (upd a n v) = List.length a.
Proof.
  revert n; induction a as [|h t IH]; intros [|n]; simpl; auto.
Qed.

Lemma nth_error_upd_eq {A : Type} (a : list A) (n : nat) (v : A) :
  (n < List.length a)%nat -> nth_error (upd a n v) n = Some v.
Proof.
  revert n; induction a as [|h t IH]; intros [|n] Hn; simpl in *; try lia; auto.
  apply IH; lia.
Qed.

Lemma nth_error_upd_neq {A : Type} (a : list A) (n m : nat) (v : A) :
  n <> m -> nth_error (upd a n v) m = nth_error a m.
Proof.
  revert n m; induction a as [|h t IH]; intros [|n] [|m] Hnm; simpl;
    try congruence; auto.
Qed.

Lemma rd_Done {A : Type} (name : string) (a : list A) (i : Z) (v : A) :
  0 <= i -> nth_error a (Z.to_nat i) = Some v -> rd name a i = Done v.
Proof.
  intros Hi Hv. unfold rd.
  destruct (Z.ltb_spec i 0); [lia|]. now rewrite Hv.
Qed.

Lemma wr_Done {A : Type} (name : string) (a : list A) (i : Z) (v : A) :
  0 <= i < Z.of_nat (List.length a) -> wr name a i v = Done (upd a (Z.to_nat i) v).
Proof.
  intros Hi. unfold wr.
  destruct (Z.ltb_spec i 0); [lia|].
  destruct (Z.leb_spec (Z.of_nat (List.length a)) i); [lia|]. reflexivity.
Qed.

Lemma calloc_length {A : Type} (zero : A) (n : Z) :
  List.length (calloc zero n) = Z.to_nat n.
Proof. unfold calloc. apply repeat_length. Qed.

Lemma at_index_upd_eq {A : Type} (a : list A) (i : Z) (v : A) :
  0 <= i < Z.of_nat (List.length a) -> at_index (upd a (Z.to_nat i) v) i = Some v.
Proof. intros H. apply nth_error_upd_eq. lia. Qed.

Lemma at_index_upd_neq {A : Type} (a : list A) (i k : Z) (v : A) :
  0 <= i -> 0 <= k -> i <> k -> at_index (upd a (Z.to_nat i) v) k = at_index a k.
Proof. intros Hi Hk Hik. apply nth_error_upd_neq. lia. Qed.

(** ** The uniform partition (lines 114-131) *)

Section UniformPartition.

Context {C : Collaborators}.
Variables (vh_box vmin : Q).


End UniformPartition.

(** ** The acceptance of the fitted components (lines 194-232) *)

Lemma rd_nth {A : Type} (name : string) (a : list A) (i : Z) (d : A) :
  0 <= i < Z.of_nat (List.length a) -> rd name a i = Done (nth (Z.to_nat i) a d).
Proof.
  intros Hi. apply rd_Done; [lia|]. apply nth_error_nth'. lia.
Qed.

Lemma firstn_upd_snoc {A : Type} (l : list A) (a : nat) (v : A) :
  (a < List.length l)%nat -> firstn (S a) (upd l a v) = (firstn a l ++ [v])%list.
Proof.
  revert a; induction l as [|h t IH]; intros [|a] Ha; simpl in *; try lia.
  - reflexivity.
  - f_equal. apply IH. lia.
Qed.

Section Acceptance.

Variables (vh_min vh_max : Q) (max_vbin : Z).
Variables (params x : list Q) (argmax : list Z) (nmax : Z).
Hypothesis Hparams : Z.of_nat (List.length params) = nmax * 3 + 1.
Hypothesis Hargmax :
  forall k, 0 <= k < nmax ->
    exists a, at_index argmax k = Some a /\ 0 <= a < Z.of_nat (List.length x).


End Acceptance.




(** ** The collaborators of the specification do not depend on the order *)

Lemma filter_length_perm {A : Type} (f : A -> bool) (l l' : list A) :
  Permutation l l' -> List.length (filter f l) = List.length (filter f l').
Proof.
  induction 1 as [|x l l' _ IH|x y l|l l' l'' _ IH1 _ IH2]; simpl.
  - reflexivity.
  - destruct (f x); simpl; congruence.
  - destruct (f x), (f y); reflexivity.
  - congruence.
Qed.

Lemma hist_perm (vh vh' : list Q) (nbin : Z) (lower upper : Q) :
  Permutation vh vh' -> Spec.hist vh nbin lower upper = Spec.hist vh' nbin lower upper.
Proof.
  intros HP. unfold Spec.hist. f_equal.
  apply map_ext. intros k. f_equal. now apply filter_length_perm.
Qed.

Section Extremum.

Variable pick : Q -> Q -> Q.
Hypothesis pick_compat : forall a b c d, (a == b -> c == d -> pick a c == pick b d)%Q.
Hypothesis pick_comm : forall a b, (pick a b == pick b a)%Q.
Hypothesis pick_assoc : forall a b c, (pick a (pick b c) == pick (pick a b) c)%Q.

Lemma same_value_trans (a b c : option Q) :
  same_value a b -> same_value b c -> same_value a c.
Proof.
  destruct a, b, c; simpl; auto; try contradiction.
  intros H1 H2. now rewrite H1.
Qed.

Lemma extremum_perm (l l' : list Q) :
  Permutation l l' -> same_value (Spec.extremum pick l) (Spec.extremum pick l').
Proof.
  induction 1 as [|x l l' _ IH|x y l|l l' l'' _ IH1 _ IH2].
  - exact I.
  - simpl. destruct (Spec.extremum pick l), (Spec.extremum pick l');
      simpl in *; try contradiction; try reflexivity.
    apply pick_compat; [reflexivity | exact IH].
  - simpl. destruct (Spec.extremum pick l); simpl.
    + rewrite !pick_assoc. apply pick_compat; [apply pick_comm | reflexivity].
    + apply pick_comm.
  - eapply same_value_trans; eassumption.
Qed.

End Extremum.

Lemma absmin_perm (l l' : list Q) : Permutation l l' -> Spec.absmin l = Spec.absmin l'.
Proof.
  intros HP. unfold Spec.absmin.
  assert (H := extremum_perm Qmin
                 (fun a b c d H1 H2 => ltac:(rewrite H1, H2; reflexivity))
                 Q.min_comm Q.min_assoc l l' HP).
  destruct (Spec.extremum Qmin l), (Spec.extremum Qmin l'); simpl in H;
    try contradiction; auto using Qred_complete.
Qed.

Lemma absmax_perm (l l' : list Q) : Permutation l l' -> Spec.absmax l = Spec.absmax l'.
Proof.
  intros HP. unfold Spec.absmax.
  assert (H := extremum_perm Qmax
                 (fun a b c d H1 H2 => ltac:(rewrite H1, H2; reflexivity))
                 Q.max_comm Q.max_assoc l l' HP).
  destruct (Spec.extremum Qmax l), (Spec.extremum Qmax l'); simpl in H;
    try contradiction; auto using Qred_complete.
Qed.

(** ** Claims on select_alt_groups *)

Section EstimatorClaims.

Context {C : Collaborators}.




(** C5.  The code at two failing inputs, with no bin flagged by the window
    test ([nmax = 0]) and the largest count in bin 2.  For the counts
    0 0 5 5 0 ... and [min_pnts = 2], bin 2 is not flagged and holds 5
    points, and the code adds nothing: it tests [hist_bins[nmax]], the
    count of bin 0.  For the counts 3 0 5 5 0 ... it flags bin [nmax = 0]
    in place of bin 2.  The first case is what the collaborators of the
    specification give for five heights at 95 and five at 115. *)
Theorem C5_absolute_maximum_indexed_by_count :
  Estimator.add_absolute_max [0; 0; 5; 5; 0; 0; 0; 0; 0; 0] (calloc 0 10) 0 2 2
  = Done (calloc 0 10, 0)
  /\ absolute_max_added [0; 0; 5; 5; 0; 0; 0; 0; 0; 0] (calloc 0 10) 0 2 2
     = Done ([0; 0; 1; 0; 0; 0; 0; 0; 0; 0], 1)
  /\ Estimator.add_absolute_max [3; 0; 5; 5; 0; 0; 0; 0; 0; 0] (calloc 0 10) 0 2 2
     = Done ([1; 0; 0; 0; 0; 0; 0; 0; 0; 0], 1)
  /\ absolute_max_added [3; 0; 5; 5; 0; 0; 0; 0; 0; 0] (calloc 0 10) 0 2 2
     = Done ([0; 0; 1; 0; 0; 0; 0; 0; 0; 0], 1)
  /\ (exists m,
        @Estimator.find_maxima Example.unfitted Example.twin_heights 50 250 40 2 = Done m
        /\ Estimator.hist_bins m = [0; 0; 5; 5; 0; 0; 0; 0; 0; 0]
        /\ Estimator.ismax m = calloc 0 10
        /\ Estimator.nmax m = 0).
Proof.
  repeat split; try reflexivity.
  eexists. split; [vm_compute; reflexivity|]. repeat split; reflexivity.
Qed.

(** C9.  The result of [select_alt_groups] depends on the heights only
    through the histogram, the minimum and the maximum: when these three
    collaborators give the same answer on a permuted array, the count and
    the contents of [vh_mins] and [vh_maxs] returned for a permutation of
    the heights are the same. *)
Theorem C9_order_of_heights_irrelevant
  (vh vh' : list Q) (vh_min vh_max vh_box : Q) (min_pnts max_vbin : Z) (fuel : nat)
  (vh_mins vh_maxs : list Q) :
  (forall l l' n a b, Permutation l l' -> histogram l n a b = histogram l' n a b) ->
  (forall l l', Permutation l l' -> float_absmin l = float_absmin l') ->
  (forall l l', Permutation l l' -> float_absmax l = float_absmax l') ->
  Permutation vh vh' ->
  Estimator.select_alt_groups vh vh_min vh_max vh_box min_pnts max_vbin fuel vh_mins vh_maxs
  = Estimator.select_alt_groups vh' vh_min vh_max vh_box min_pnts max_vbin fuel vh_mins vh_maxs.
Proof.
  intros Hhist Hmin Hmax HP.
  unfold Estimator.select_alt_groups, Estimator.find_maxima.
  rewrite (Hhist vh vh' _ _ _ HP), (Hmin vh vh' HP), (Hmax vh vh' HP).
  reflexivity.
Qed.

End EstimatorClaims.




Lemma C9_order_of_heights_irrelevant_witness :
  @Estimator.select_alt_groups Example.unfitted [100; 160; 120]%Q 50 250 40 2 10
    5%nat (Example.zeros 10) (Example.zeros 10)
  = @Estimator.select_alt_groups Example.unfitted [160; 120; 100]%Q 50 250 40 2 10
      5%nat (Example.zeros 10) (Example.zeros 10).
Proof.
  apply (@C9_order_of_heights_irrelevant Example.unfitted).
  - intros l l' n a b HP. apply hist_perm, HP.
  - exact absmin_perm.
  - exact absmax_perm.
  - exact (Permutation_cons_append [160; 120]%Q 100%Q).
Defined.

(** ** Claims on sort_expand_boundaries *)

Section CandidateLoop.

Variables (num max_vbin : Z) (vh_box : Q).
Variables (sortargs : list Z) (vh_mins vh_maxs vh_peaks : list Q).

Lemma merge_loop_finished (fuel : nat) (i : Z) (l : Reconciler.locals) :
  (i <? num) = false ->
  Reconciler.merge_loop num max_vbin vh_box sortargs vh_mins vh_maxs vh_peaks fuel i l
  = Done l.
Proof.
  intros Hi. destruct fuel; simpl; rewrite Hi; reflexivity.
Qed.

(** The loop with a budget of [k + fuel] turns is [k] turns followed by
    the loop with a budget of [fuel]. *)
Lemma merge_loop_iterate (k fuel : nat) :
  forall (i : Z) (l : Reconciler.locals),
    Reconciler.merge_loop num max_vbin vh_box sortargs vh_mins vh_maxs vh_peaks
      (k + fuel) i l
    = ('(i', l') <- Reconciler.iterate num max_vbin vh_box sortargs vh_mins vh_maxs
                      vh_peaks k i l ;;
       Reconciler.merge_loop num max_vbin vh_box sortargs vh_mins vh_maxs vh_peaks
         fuel i' l').
Proof.
  induction k as [|k IH]; intros i l.
  - reflexivity.
  - cbn [Nat.add Reconciler.merge_loop Reconciler.iterate].
    destruct (i <? num) eqn:Hi.
    + destruct (Reconciler.merge_body num vh_box sortargs vh_mins vh_maxs vh_peaks i l)
        as [[i' l']| | |]; cbn [bind]; try reflexivity.
      destruct (Reconciler.inew l' >=? max_vbin); [reflexivity | apply IH].
    + cbn [bind]. symmetry. apply merge_loop_finished, Hi.
Qed.

Lemma iterate_finished (k : nat) (i : Z) (l : Reconciler.locals) :
  (i <? num) = false ->
  Reconciler.iterate num max_vbin vh_box sortargs vh_mins vh_maxs vh_peaks k i l
  = Done (i, l).
Proof.
  intros Hi. destruct k; simpl; rewrite ?Hi; reflexivity.
Qed.

(** While [k] turns leave the loop running, a budget of at most [k] turns
    runs out. *)
Lemma still_running :
  forall (fuel k : nat) (i : Z) (l : Reconciler.locals) (i' : Z) (l' : Reconciler.locals),
    (fuel <= k)%nat ->
    Reconciler.iterate num max_vbin vh_box sortargs vh_mins vh_maxs vh_peaks k i l
    = Done (i', l') ->
    (i' <? num) = true ->
    Reconciler.merge_loop num max_vbin vh_box sortargs vh_mins vh_maxs vh_peaks fuel i l
    = OutOfFuel.
Proof.
  induction fuel as [|fuel IH]; intros k i l i' l' Hle Hit Hrun.
  - simpl. destruct (i <? num) eqn:Hi; [reflexivity|].
    rewrite iterate_finished in Hit by exact Hi. congruence.
  - destruct k as [|k]; [lia|].
    cbn [Reconciler.merge_loop]. cbn [Reconciler.iterate] in Hit.
    destruct (i <? num) eqn:Hi; [|congruence].
    destruct (Reconciler.merge_body num vh_box sortargs vh_mins vh_maxs vh_peaks i l)
      as [[i1 l1]| | |]; cbn [bind] in *; try discriminate.
    destruct (Reconciler.inew l1 >=? max_vbin); [discriminate|].
    apply (IH k (i1 + 1) l1 i' l'); [lia | exact Hit | exact Hrun].
Qed.

(** A state the loop comes back to, with candidates left, is a state the
    loop never leaves. *)
Lemma cycle_never_ends (k : nat) (i : Z) (T : Reconciler.locals) :
  (0 < k)%nat -> (i <? num) = true ->
  Reconciler.iterate num max_vbin vh_box sortargs vh_mins vh_maxs vh_peaks k i T
  = Done (i, T) ->
  forall fuel,
    Reconciler.merge_loop num max_vbin vh_box sortargs vh_mins vh_maxs vh_peaks fuel i T
    = OutOfFuel.
Proof.
  intros Hk Hrun Hcycle fuel.
  induction fuel as [fuel IH] using lt_wf_ind.
  destruct (le_lt_dec fuel k) as [Hle|Hgt].
  - apply (still_running fuel k i T i T Hle Hcycle Hrun).
  - replace fuel with (k + (fuel - k))%nat by lia.
    rewrite merge_loop_iterate, Hcycle. cbn [bind]. apply IH. lia.
Qed.

Lemma loop_never_ends (k0 k : nat) (i : Z) (l0 T : Reconciler.locals) :
  Reconciler.iterate num max_vbin vh_box sortargs vh_mins vh_maxs vh_peaks k0 0 l0
  = Done (i, T) ->
  (0 < k)%nat -> (i <? num) = true ->
  Reconciler.iterate num max_vbin vh_box sortargs vh_mins vh_maxs vh_peaks k i T
  = Done (i, T) ->
  forall fuel,
    Reconciler.merge_loop num max_vbin vh_box sortargs vh_mins vh_maxs vh_peaks fuel 0 l0
    = OutOfFuel.
Proof.
  intros Hreach Hk Hrun Hcycle fuel.
  destruct (le_lt_dec fuel k0) as [Hle|Hgt].
  - apply (still_running fuel k0 0 l0 i T Hle Hreach Hrun).
  - replace fuel with (k0 + (fuel - k0))%nat by lia.
    rewrite merge_loop_iterate, Hreach. cbn [bind].
    apply (cycle_never_ends k i T Hk Hrun Hcycle).
Qed.

End CandidateLoop.

(** The function runs out of any budget when its candidate loop does. *)
Lemma sort_expand_boundaries_out_of_fuel {C : Collaborators}
  (num max_vbin : Z) (local_min local_max vh_min vh_max vh_box : Q) (fuel : nat)
  (vh_mins vh_maxs vh_peaks vh_mins1 : list Q) (l1 : Reconciler.locals) :
  (num =? 0) = false ->
  Reconciler.lower_range num max_vbin local_min vh_min vh_box
    (smart_argsort_float num vh_mins) vh_mins
    (Reconciler.Locals (calloc 0%Q max_vbin) (calloc 0%Q max_vbin) (calloc 0%Q max_vbin)
       (calloc 0 max_vbin) 0)
  = Done (vh_mins1, l1) ->
  Reconciler.merge_loop num max_vbin vh_box (smart_argsort_float num vh_mins)
    vh_mins1 vh_maxs vh_peaks fuel 0 l1 = OutOfFuel ->
  Reconciler.sort_expand_boundaries num max_vbin local_min local_max vh_min vh_max vh_box
    fuel vh_mins vh_maxs vh_peaks = OutOfFuel.
Proof.
  intros Hnum Hlow Hloop. unfold Reconciler.sort_expand_boundaries.
  rewrite Hnum, Hlow. cbn [bind]. rewrite Hloop. reflexivity.
Qed.

(** The backward loop of lines 401-402 stops at the last interval that
    starts below [hmin]. *)
Lemma collapse_stops (hmin : Q) (mins : list Q) (k : Z) (v : Q) :
  0 < k -> at_index mins (k - 1) = Some v -> (v < hmin)%Q ->
  forall (n : nat) (K : Z),
    k <= K -> (Z.to_nat (K - k) <= n)%nat ->
    (forall k', k < k' <= K ->
       exists v', at_index mins (k' - 1) = Some v' /\ (hmin <= v')%Q) ->
    Reconciler.collapse n hmin mins K = Done k.
Proof.
  intros Hk Hv Hlt. induction n as [|n IH]; intros K HK Hn Hall.
  - assert (K = k) by lia. subst K. simpl.
    rewrite (rd_Done "new_mins" mins (k - 1) v) by (auto; lia). cbn [bind].
    replace (fle hmin v) with false; [reflexivity|].
    symmetry. apply not_true_is_false. unfold fle. rewrite Qle_bool_iff. lra.
  - destruct (Z.eq_dec K k) as [->|Hne].
    + simpl.
      rewrite (rd_Done "new_mins" mins (k - 1) v) by (auto; lia). cbn [bind].
      replace (fle hmin v) with false; [reflexivity|].
      symmetry. apply not_true_is_false. unfold fle. rewrite Qle_bool_iff. lra.
    + destruct (Hall K) as (v' & Hv' & Hle); [lia|].
      cbn [Reconciler.collapse].
      rewrite (rd_Done "new_mins" mins (K - 1) v') by (auto; lia). cbn [bind].
      replace (fle hmin v') with true
        by (symmetry; unfold fle; rewrite Qle_bool_iff; exact Hle).
      destruct (Z.gtb_spec K 0); [|lia]. cbn [andb].
      apply IH; [lia | lia |]. intros k' Hk'. apply Hall. lia.
Qed.

(** C4, amended.  When the candidate at sorted index [i] overlaps the last
    stored interval (the test of lines 384-385), the priorities decide as
    follows.  If the last interval is the more important one (its priority
    value is below the index [s] of the candidate), it is kept whole and an
    interval of filler priority is stored after it, from its upper bound to
    the rounded upper bound of the candidate.  Otherwise the stored
    intervals that start at or above the lower bound [hmin] of the
    candidate are dropped, the last interval that starts below [hmin] is
    made to end at [hmin], and nothing is stored for the candidate. *)
Theorem C4_overlap_resolved_by_priority
  (num : Z) (vh_box : Q) (sortargs : list Z) (vh_mins vh_maxs vh_peaks : list Q)
  (i s : Z) (l : Reconciler.locals) (hmin pk hi last_max last_pk : Q) (pr : Z) :
  0 <= i -> 0 <= s ->
  at_index sortargs i = Some s ->
  at_index vh_mins s = Some hmin ->
  at_index vh_peaks s = Some pk ->
  at_index vh_maxs s = Some hi ->
  0 < Reconciler.inew l ->
  at_index (Reconciler.new_maxs l) (Reconciler.inew l - 1) = Some last_max ->
  at_index (Reconciler.new_peaks l) (Reconciler.inew l - 1) = Some last_pk ->
  at_index (Reconciler.priority l) (Reconciler.inew l - 1) = Some pr ->
  (pk <= last_max \/ hmin <= last_pk)%Q ->
  (pr < s -> room l ->
   Reconciler.merge_body num vh_box sortargs vh_mins vh_maxs vh_peaks i l
   = Done (i, extend_after_last num l last_max hi))
  /\ (s <= pr -> forall k, last_below hmin l k ->
      Reconciler.merge_body num vh_box sortargs vh_mins vh_maxs vh_peaks i l
      = Done (i, cut_back l k hmin)).
Proof.
  intros Hi Hs Hsort Hmin Hpk Hhi Hinew Hlast Hlpk Hpr Hover.
  assert (Hhead :
      Reconciler.merge_body num vh_box sortargs vh_mins vh_maxs vh_peaks i l
      = (if pr <? s then
           l' <- Reconciler.append l last_max (ceil hi)
                   (last_max + (1 # 2) * (ceil hi - last_max))%Q
                   (Reconciler.inew l + num) ;;
           Done (i, l')
         else
           k <- Reconciler.collapse (Z.to_nat (Reconciler.inew l)) hmin
                  (Reconciler.new_mins l) (Reconciler.inew l) ;;
           if k >? 0 then
             l'' <- Reconciler.set_last_max
                      (Reconciler.Locals (Reconciler.new_mins l) (Reconciler.new_maxs l)
                         (Reconciler.new_peaks l) (Reconciler.priority l) k) hmin ;;
             Done (i, l'')
           else Done (i, Reconciler.Locals (Reconciler.new_mins l) (Reconciler.new_maxs l)
                           (Reconciler.new_peaks l) (Reconciler.priority l) k))).
  { unfold Reconciler.merge_body.
    rewrite (rd_Done "sortargs" sortargs i s) by auto. cbn [bind].
    rewrite (rd_Done "vh_mins" vh_mins s hmin) by auto. cbn [bind].
    destruct (Z.gtb_spec (Reconciler.inew l) 0); [|lia].
    rewrite (rd_Done "new_maxs" _ _ last_max) by (auto; lia). cbn [bind].
    rewrite (rd_Done "vh_peaks" vh_peaks s pk) by auto. cbn [bind].
    assert (Eover : (if fle pk last_max then Done true
                     else last_pk0 <- rd "new_peaks" (Reconciler.new_peaks l)
                                        (Reconciler.inew l - 1) ;;
                          Done (fle hmin last_pk0)) = Done true).
    { destruct (fle pk last_max) eqn:E1; [reflexivity|].
      rewrite (rd_Done "new_peaks" _ _ last_pk) by (auto; lia). cbn [bind].
      f_equal. unfold fle in *. apply Qle_bool_iff.
      destruct Hover as [Ho|Ho]; [|exact Ho].
      apply Qle_bool_iff in Ho. congruence. }
    rewrite Eover. cbn [bind].
    rewrite (rd_Done "priority" _ _ pr) by (auto; lia). cbn [bind].
    destruct (pr <? s); [|reflexivity].
    rewrite (rd_Done "vh_maxs" vh_maxs s hi) by auto. reflexivity. }
  split.
  - intros Hlt (R1 & R2 & R3 & R4). rewrite Hhead.
    destruct (Z.ltb_spec pr s); [|lia].
    unfold Reconciler.append.
    rewrite !wr_Done by lia. reflexivity.
  - intros Hge k (Hk & (v & Hv & Hvlt) & Hall). rewrite Hhead.
    destruct (Z.ltb_spec pr s); [lia|].
    rewrite (collapse_stops hmin (Reconciler.new_mins l) k v) by (auto; lia).
    cbn [bind]. destruct (Z.gtb_spec k 0); [|lia].
    unfold Reconciler.set_last_max. cbn [Reconciler.new_maxs Reconciler.inew].
    assert (Hlen : Reconciler.inew l - 1 < Z.of_nat (List.length (Reconciler.new_maxs l))).
    { unfold at_index in Hlast.
      assert (Hsome : nth_error (Reconciler.new_maxs l)
                        (Z.to_nat (Reconciler.inew l - 1)) <> None) by congruence.
      apply nth_error_Some in Hsome. lia. }
    rewrite wr_Done by lia. reflexivity.
Qed.

Lemma C4_overlap_resolved_by_priority_witness :
  (Reconciler.merge_body 2 30 [0; 1] [100; 110]%Q [130; 150]%Q [110; 125]%Q 1
     (Example.stored [100]%Q [130]%Q [110]%Q [0])
   = Done (1, extend_after_last 2 (Example.stored [100]%Q [130]%Q [110]%Q [0]) 130 150))
  /\ (Reconciler.merge_body 2 30 [1; 0] [110; 100]%Q [150; 130]%Q [125; 110]%Q 1
        (Example.stored [100]%Q [130]%Q [110]%Q [1])
      = Done (1, cut_back (Example.stored [100]%Q [130]%Q [110]%Q [1]) 1 110)).
Proof.
  split.
  - apply (proj1 (C4_overlap_resolved_by_priority 2 30 [0; 1] [100; 110]%Q [130; 150]%Q
                    [110; 125]%Q 1 1 (Example.stored [100]%Q [130]%Q [110]%Q [0])
                    110 125 150 130 110 0
                    ltac:(lia) ltac:(lia) eq_refl eq_refl eq_refl eq_refl
                    ltac:(simpl; lia) eq_refl eq_refl eq_refl
                    ltac:(left; unfold Qle; simpl; lia))).
    + lia.
    + unfold room. simpl. lia.
  - apply (proj2 (C4_overlap_resolved_by_priority 2 30 [1; 0] [110; 100]%Q [150; 130]%Q
                    [125; 110]%Q 1 0 (Example.stored [100]%Q [130]%Q [110]%Q [1])
                    110 125 150 130 110 1
                    ltac:(lia) ltac:(lia) eq_refl eq_refl eq_refl eq_refl
                    ltac:(simpl; lia) eq_refl eq_refl eq_refl
                    ltac:(left; unfold Qle; simpl; lia))).
    + lia.
    + unfold last_below. simpl. split; [lia|]. split.
      * exists 100%Q. split; [reflexivity | reflexivity].
      * intros k' Hk'. lia.
Defined.

(** C4 as stated fails: the stored interval [100, 130] has priority 0 and
    the candidate [110, 150] of index 1 is the less important one; the
    claim has the stored interval cut back to end at 110 and the candidate
    dropped, and the code keeps [100, 130] and stores [130, 150]. *)
Lemma C4_counterexample :
  0 < 1
  /\ last_below 110 (Example.stored [100]%Q [130]%Q [110]%Q [0]) 1
  /\ Reconciler.merge_body 2 30 [0; 1] [100; 110]%Q [130; 150]%Q [110; 125]%Q 1
       (Example.stored [100]%Q [130]%Q [110]%Q [0])
     <> Done (1, cut_back (Example.stored [100]%Q [130]%Q [110]%Q [0]) 1 110).
Proof.
  split; [lia|]. split.
  - unfold last_below. simpl. split; [lia|]. split.
    + exists 100%Q. split; reflexivity.
    + intros k' Hk'. lia.
  - vm_compute. discriminate.
Qed.

(** C8.  The code at two failing inputs.  The first is four candidates
    [100, 120], [105, 140], [125, 135], [160, 190] with peaks 110, 122,
    130, 175 and a width of 30.  At candidate 3 the gap above 125 is
    bridged by one filler and the bridging loop leaves [i = 1], so the
    candidate loop goes back to candidate 2, which removes the filler
    again and restores the state in which candidate 3 meets the same gap:
    whatever the budget of turns, the candidate loop does not end.  The
    second is [select_alt_groups] itself on 110 heights at 58 and one each
    at 106, 154 and 202, with limits [50, 210], a width of 30 and a solver
    that stays at its first guess: the four candidates [50, 103],
    [61, 151], [109, 199], [157, 210] with the common peak value 110 drive
    the candidate loop into the same cycle. *)
Theorem C8_candidate_loop_never_ends :
  forall fuel : nat,
    @Reconciler.sort_expand_boundaries 4 10 100 190 50 250 30 Example.unfitted fuel
      (Example.pad 10 [100; 105; 125; 160]%Q) (Example.pad 10 [120; 140; 135; 190]%Q)
      (Example.pad 10 [110; 122; 130; 175]%Q)
    = OutOfFuel
    /\ @Estimator.select_alt_groups Example.at_guess Example.crowded_heights 50 210 30 2 10
         fuel (Example.zeros 10) (Example.zeros 10)
       = OutOfFuel.
Proof.
  intros fuel. split.
  - set (A := Example.pad 10 [100; 105; 125; 160]%Q).
    set (B := Example.pad 10 [120; 140; 135; 190]%Q).
    set (P := Example.pad 10 [110; 122; 130; 175]%Q).
    set (sa := @smart_argsort_float Example.unfitted 4 A).
    set (l0 := Reconciler.Locals (calloc 0%Q 10) (calloc 0%Q 10) (calloc 0%Q 10)
                 (calloc 0 10) 0).
    (* four turns reach candidate 2 with the filler stored; two more turns
       come back to the same index and the same locals *)
    assert (Hcycle : exists T,
               Reconciler.iterate 4 10 30 sa A B P 4 0 l0 = Done (2, T)
               /\ Reconciler.iterate 4 10 30 sa A B P 2 2 T = Done (2, T)).
    { eexists. split; [vm_compute; reflexivity|]. vm_compute; reflexivity. }
    destruct Hcycle as (T & Hreach & Hback).
    apply (sort_expand_boundaries_out_of_fuel (C := Example.unfitted))
      with (vh_mins1 := A) (l1 := l0).
    + reflexivity.
    + vm_compute. reflexivity.
    + apply (loop_never_ends 4 10 30 sa A B P 4 2 2 l0 T Hreach); auto. 
  - set (C := Example.at_guess).
    set (l0 := Reconciler.Locals (calloc 0%Q 10) (calloc 0%Q 10) (calloc 0%Q 10)
                 (calloc 0 10) 0).
    assert (Hrun : exists m A B P T,
               @Estimator.find_maxima C Example.crowded_heights 50 210 30 2 = Done m
               /\ (Estimator.nmax m =? 0) = false
               /\ @Estimator.fit_candidates C 50 210 30 10 m (Example.zeros 10)
                    (Example.zeros 10) (calloc 0%Q 10) = Done (4, (A, B, P))
               /\ Reconciler.lower_range 4 10 (@float_absmin C Example.crowded_heights)
                    50 30 (@smart_argsort_float C 4 A) A l0 = Done (A, l0)
               /\ Reconciler.iterate 4 10 30 (@smart_argsort_float C 4 A) A B P 4 0 l0
                  = Done (2, T)
               /\ Reconciler.iterate 4 10 30 (@smart_argsort_float C 4 A) A B P 2 2 T
                  = Done (2, T)).
    { do 5 eexists.
      split; [vm_compute; reflexivity|]. split; [vm_compute; reflexivity|].
      split; [vm_compute; reflexivity|]. split; [vm_compute; reflexivity|].
      split; [vm_compute; reflexivity|]. vm_compute; reflexivity. }
    destruct Hrun as (m & A & B & P & T & Hm & Hnz & Hfit & Hlow & Hreach & Hback).
    unfold Estimator.select_alt_groups. rewrite Hm. cbn [bind]. rewrite Hnz.
    unfold Estimator.fit_limits. rewrite Hfit. cbn [bind].
    change (4 =? 0) with false. cbv iota.
    rewrite (sort_expand_boundaries_out_of_fuel (C := C) 4 10 _ _ 50 210 30 fuel
               A B P A l0 eq_refl Hlow); [reflexivity|].
    apply (loop_never_ends 4 10 30 _ A B P 4 2 2 l0 T Hreach); auto.
Qed.

(** C2.  The code at a failing input: one candidate [161, 200] with heights
    observed from 100 to 201 and a width of 30.  The two fillers below the
    candidate are [floor(100), ceil(130.5)] and [floor(130.5), ceil(161)]:
    the function returns [100, 131], [130, 161], [161, 201], and the first
    interval ends above the start of the second.  The same happens in
    [select_alt_groups] itself, with a solver that stays at its first
    guess, on ten heights from 100 to 225 whose histogram has its only
    maximum in the bin [210, 230): the candidate is [175, 250] and the
    result is [100, 138], [137, 175], [175, 225]. *)
Theorem C2_lower_fillers_overlap :
  (exists mins maxs peaks,
     @Reconciler.sort_expand_boundaries 1 10 100 201 50 250 30 Example.unfitted 10%nat
       (Example.pad 10 [161%Q]) (Example.pad 10 [200%Q]) (Example.pad 10 [4%Q])
     = Done (3, (mins, maxs, peaks))
     /\ firstn 3 mins = [100; 130; 161]%Q
     /\ firstn 3 maxs = [131; 161; 201]%Q
     /\ ~ non_overlapping 3 mins maxs)
  /\ (exists mins maxs,
        @Estimator.select_alt_groups Example.at_guess Example.high_peak_heights
          50 250 30 2 10 10%nat (Example.zeros 10) (Example.zeros 10)
        = Done (3, (mins, maxs))
        /\ map Qred (firstn 3 mins) = [100; 137; 175]%Q
        /\ map Qred (firstn 3 maxs) = [138; 175; 225]%Q
        /\ ~ non_overlapping 3 mins maxs).
Proof.
  split.
  - eexists; eexists; eexists. split; [vm_compute; reflexivity|].
    split; [reflexivity|]. split; [reflexivity|].
    intros H. specialize (H 0 130%Q 131%Q).
    assert (Hle : (131 <= 130)%Q) by (apply H; [lia | reflexivity | reflexivity]).
    vm_compute in Hle. apply Hle. reflexivity.
  - eexists; eexists. split; [vm_compute; reflexivity|].
    split; [reflexivity|]. split; [reflexivity|].
    intros H. specialize (H 0 137%Q 138%Q).
    assert (Hle : (138 <= 137)%Q) by (apply H; [lia | reflexivity | reflexivity]).
    vm_compute in Hle. apply Hle. reflexivity.
Qed.

(** C3.  The code at three failing inputs.  With one candidate [100, 130],
    heights observed up to 200, a width of 30 and [max_vbin = 2], the pass
    above the last interval needs two fillers and stores the second at
    index 2 of arrays of two entries, with no capacity test: the run ends
    neither with the fatal message nor with a count within [max_vbin].
    With the candidates [100, 110] and [200, 230] and [max_vbin = 3], the
    loop that bridges the gap stores its three fillers before any test,
    the last at index 3 of arrays of three entries.  The first case arises
    in [select_alt_groups] itself, with a solver that stays at its first
    guess, on ten heights from 95 to 215 whose histogram has its only
    maximum in the bin [90, 110). *)
Theorem C3_fillers_stored_unchecked :
  @Reconciler.sort_expand_boundaries 1 2 100 200 50 250 30 Example.unfitted 10%nat
    (Example.pad 2 [100%Q]) (Example.pad 2 [130%Q]) (Example.pad 2 [4%Q])
  = OutOfBounds "new_mins" 2
  /\ ~ capacity_respected 2
        (@Reconciler.sort_expand_boundaries 1 2 100 200 50 250 30 Example.unfitted 10%nat
           (Example.pad 2 [100%Q]) (Example.pad 2 [130%Q]) (Example.pad 2 [4%Q]))
  /\ @Reconciler.sort_expand_boundaries 2 3 100 230 50 250 30 Example.unfitted 10%nat
       (Example.pad 3 [100; 200]%Q) (Example.pad 3 [110; 230]%Q) (Example.pad 3 [105; 215]%Q)
     = OutOfBounds "new_mins" 3
  /\ @Estimator.select_alt_groups Example.at_guess Example.low_peak_heights
       50 250 30 2 2 10%nat (Example.zeros 2) (Example.zeros 2)
     = OutOfBounds "new_mins" 2.
Proof.
  split; [vm_compute; reflexivity|].
  split; [intros H; vm_compute in H; exact H|].
  split; vm_compute; reflexivity.
Qed.

(** C10.  The code at three failing inputs.  With three candidates that
    all start at 100, the backward loop of lines 401-402 removes both
    stored intervals and then reads [new_mins[-1]] before it tests
    [inew > 0].  With a single candidate of zero width, nothing is stored
    and the guard of line 471 reads [new_maxs[-1]].  The first case arises
    in [select_alt_groups] itself when the solver returns three Gaussians
    whose 3-sigma limits all fall below [vh_min = 100]. *)
Theorem C10_reads_at_index_minus_one :
  @Reconciler.sort_expand_boundaries 3 10 100 140 100 250 30 Example.unfitted 10%nat
    (Example.pad 10 [100; 100; 100]%Q) (Example.pad 10 [130; 120; 140]%Q)
    (Example.pad 10 [4; 4; 4]%Q)
  = OutOfBounds "new_mins" (-1)
  /\ @Reconciler.sort_expand_boundaries 1 10 120 140 100 250 30 Example.unfitted 10%nat
       (Example.pad 10 [120%Q]) (Example.pad 10 [120%Q]) (Example.pad 10 [4%Q])
     = OutOfBounds "new_maxs" (-1)
  /\ @Estimator.select_alt_groups Example.broad_fit Example.three_peak_heights
       100 250 30 2 10 10%nat (Example.zeros 10) (Example.zeros 10)
     = OutOfBounds "new_mins" (-1).
Proof.
  repeat split; vm_compute; reflexivity.
Qed.

(** ** Further properties of select_alt_groups *)


Lemma rd_no_exit {A : Type} (name : string) (a : list A) (i : Z) (msg : string) :
  rd name a i <> Exit msg.
Proof.
  unfold rd. destruct (i <? 0); [discriminate|].
  destruct (nth_error a (Z.to_nat i)); discriminate.
Qed.

Lemma wr_no_exit {A : Type} (name : string) (a : list A) (i : Z) (v : A) (msg : string) :
  wr name a i v <> Exit msg.
Proof.
  unfold wr. destruct ((i <? 0) || (Z.of_nat (List.length a) <=? i)); discriminate.
Qed.




Section HistogramStage.

Context {C : Collaborators}.
Variables (vh : list Q) (vh_min vh_max vh_box : Q) (min_pnts : Z).



End HistogramStage.





(** ** Further properties of the acceptance loop (lines 194-232) *)






Section AcceptanceMore.

Variables (vh_min vh_max : Q) (max_vbin : Z).
Variables (params x : list Q) (argmax : list Z) (nmax : Z).
Hypothesis Hparams : Z.of_nat (List.length params) = nmax * 3 + 1.
Hypothesis Hargmax :
  forall k, 0 <= k < nmax ->
    exists a, at_index argmax k = Some a /\ 0 <= a < Z.of_nat (List.length x).

(** Past the capacity the loop stops with the message of line 222. *)
Lemma accept_loop_overflow :
  forall (n : nat) (j npeaks : Z) (mins maxs peaks : list Q),
    0 <= j -> j + Z.of_nat n <= nmax -> 0 <= npeaks <= max_vbin ->
    max_vbin < npeaks + Z.of_nat (List.length
                 (filter (seed_in_window vh_min vh_max)
                    (map (fitted params x argmax) (indices j n)))) ->
    max_vbin <= Z.of_nat (List.length mins) ->
    max_vbin <= Z.of_nat (List.length maxs) ->
    max_vbin <= Z.of_nat (List.length peaks) ->
    Estimator.accept_loop vh_min vh_max max_vbin params x argmax n j npeaks mins maxs peaks
    = Exit Estimator.fits_msg.
Proof.
  induction n as [|n IH]; intros j npeaks mins maxs peaks Hj Hjn Hnp Hover Hm Hx Hp.
  - simpl in Hover. lia.
  - destruct (Hargmax j) as (a & Ha & Harange); [lia|].
    assert (Ea : nth (Z.to_nat j) argmax 0 = a) by (apply nth_error_nth, Ha).
    cbn [Estimator.accept_loop].
    rewrite (rd_nth "params" params (2 + j * 3) 0%Q) by lia. cbn [bind].
    rewrite (rd_nth "params" params (3 + j * 3) 0%Q) by lia. cbn [bind].
    rewrite (rd_Done "argmax" argmax j a) by (auto; lia). cbn [bind].
    rewrite (rd_nth "x" x a 0%Q) by lia. cbn [bind].
    cbn [indices map filter] in Hover.
    set (c := nth (Z.to_nat (2 + j * 3)) params 0%Q) in *.
    set (sg := nth (Z.to_nat (3 + j * 3)) params 0%Q) in *.
    set (seed := nth (Z.to_nat a) x 0%Q) in *.
    assert (Efit : fitted params x argmax j = (c, sg, seed)).
    { unfold fitted. rewrite Ea. reflexivity. }
    rewrite Efit in Hover. cbn [seed_in_window] in Hover.
    destruct (fle (Estimator.clamp_low vh_min (c - 2 * sg)) seed
              && fle seed (Estimator.clamp_high vh_max (c + 2 * sg))) eqn:Eacc.
    + cbn [List.length] in Hover.
      destruct (Z.geb_spec npeaks max_vbin); [reflexivity|].
      rewrite (wr_Done "vh_mins" mins npeaks) by lia. cbn [bind].
      rewrite (wr_Done "vh_maxs" maxs npeaks) by lia. cbn [bind].
      rewrite (rd_nth "params" params 1 0%Q) by lia. cbn [bind].
      rewrite (wr_Done "vh_peaks" peaks npeaks) by lia. cbn [bind].
      apply IH; rewrite ?upd_length; lia.
    + apply IH; lia.
Qed.


(** X4.  The capacity test of lines 219-224: when more components pass the
    test of line 216 than [max_vbin], the loop stops with the fatal
    message instead of storing them. *)
Theorem X4_too_many_fits_is_fatal (vh_mins vh_maxs vh_peaks : list Q) :
  0 <= nmax -> 0 <= max_vbin ->
  max_vbin < Z.of_nat (List.length
               (filter (seed_in_window vh_min vh_max)
                  (map (fitted params x argmax) (indices 0 (Z.to_nat nmax))))) ->
  max_vbin <= Z.of_nat (List.length vh_mins) ->
  max_vbin <= Z.of_nat (List.length vh_maxs) ->
  max_vbin <= Z.of_nat (List.length vh_peaks) ->
  Estimator.accept_loop vh_min vh_max max_vbin params x argmax (Z.to_nat nmax) 0 0
    vh_mins vh_maxs vh_peaks
  = Exit Estimator.fits_msg.
Proof.
  intros Hn Hcap Hover Hm Hx Hp.
  apply accept_loop_overflow; try lia.
Qed.


End AcceptanceMore.

Lemma X4_too_many_fits_is_fatal_witness :
  Estimator.accept_loop 50 250 1 Example.near_fit Example.bin_centres [0; 3]
    (Z.to_nat 2) 0 0 (Example.zeros 10) (Example.zeros 10) (Example.zeros 10)
  = Exit Estimator.fits_msg.
Proof.
  apply X4_too_many_fits_is_fatal; try (simpl; lia); try reflexivity.
  intros k Hk. assert (Hcase : k = 0 \/ k = 1) by lia.
  destruct Hcase as [-> | ->]; eexists; (split; [reflexivity | simpl; lia]).
Defined.


(** ** Further properties of the fit stage and its fallback (lines 136-262) *)

Lemma flt_iff (a b : Q) : flt a b = true <-> (a < b)%Q.
Proof.
  unfold flt. rewrite negb_true_iff. split; intros H.
  - apply Qnot_le_lt. rewrite <- Qle_bool_iff. congruence.
  - apply not_true_is_false. rewrite Qle_bool_iff. lra.
Qed.

Lemma flt_false_iff (a b : Q) : flt a b = false <-> (b <= a)%Q.
Proof.
  unfold flt. rewrite negb_false_iff. apply Qle_bool_iff.
Qed.

Lemma rd_outside {A : Type} (name : string) (a : list A) (i : Z) :
  Z.of_nat (List.length a) <= i -> rd name a i = OutOfBounds name i.
Proof.
  intros Hi. unfold rd. destruct (Z.ltb_spec i 0); [reflexivity|].
  replace (nth_error a (Z.to_nat i)) with (@None A); [reflexivity|].
  symmetry. apply nth_error_None. lia.
Qed.

Section FitStage.

Context {C : Collaborators}.
Variables (vh : list Q) (vh_min vh_max vh_box : Q) (min_pnts max_vbin : Z).

(** X6.  A solver status of 1 or less keeps no candidate: the fit stage
    then returns the count 0 and leaves the three arrays as they were, so
    that the partition of lines 245-261 is used. *)
Theorem X6_unconverged_fit_keeps_no_candidate
  (m : Estimator.maxima) (vh_mins vh_maxs vh_peaks : list Q)
  (r : Z * (list Q * list Q * list Q)) :
  (forall n x y e p, fst (mpfit n x y e p) <= 1) ->
  Estimator.fit_candidates vh_min vh_max vh_box max_vbin m vh_mins vh_maxs vh_peaks
  = Done r ->
  r = (0, (vh_mins, vh_maxs, vh_peaks)).
Proof.
  intros Hfail. unfold Estimator.fit_candidates.
  destruct (Estimator.collect_maxima _ _ _ _ _ _) as [[argmax valmax]| | |];
    cbn [bind]; try discriminate.
  match goal with
  | |- context [bind ?w _] => destruct w as [hw| | |]; cbn [bind]; try discriminate
  end.
  destruct (Estimator.cast_bins _ _ _ _ _ _) as [[x y]| | |]; cbn [bind];
    try discriminate.
  destruct (wr "params" _ 0 _) as [p0| | |]; cbn [bind]; try discriminate.
  destruct (Estimator.seed_params _ _ _ _ _ _ _) as [p1| | |]; cbn [bind];
    try discriminate.
  specialize (Hfail (Estimator.nbin m) x y (calloc 1%Q (Estimator.nbin m)) p1).
  destruct (mpfit (Estimator.nbin m) x y (calloc 1%Q (Estimator.nbin m)) p1)
    as [status params]. simpl in Hfail.
  destruct (Z.gtb_spec status 1); [lia|].
  intros Hr. inversion Hr. reflexivity.
Qed.

(** X8.  Line 251 indexes [vh_maxs], [vh_mins] and [vh_peaks] with the [i]
    left at [nbin] by the loop of lines 171-176.  When no fitted component
    is kept and the arrays of the caller hold [nbin] entries or fewer,
    [select_alt_groups] reads [vh_maxs[nbin]] outside the array. *)
Theorem X8_fallback_after_fit_reads_past_arrays
  (fuel : nat) (m : Estimator.maxima) (vh_mins vh_maxs a b p : list Q) :
  Estimator.find_maxima vh vh_min vh_max vh_box min_pnts = Done m ->
  Estimator.nmax m <> 0 ->
  Estimator.fit_candidates vh_min vh_max vh_box max_vbin m vh_mins vh_maxs
    (calloc 0%Q max_vbin) = Done (0, (a, b, p)) ->
  (0 < List.length a)%nat ->
  (0 < List.length b)%nat ->
  Z.of_nat (List.length b) <= Estimator.nbin m ->
  Estimator.select_alt_groups vh vh_min vh_max vh_box min_pnts max_vbin fuel vh_mins vh_maxs
  = OutOfBounds "vh_maxs" (Estimator.nbin m).
Proof.
  intros Hm Hn Hfit Ha Hb Hlen.
  unfold Estimator.select_alt_groups. rewrite Hm. cbn [bind].
  destruct (Z.eqb_spec (Estimator.nmax m) 0); [contradiction|].
  unfold Estimator.fit_limits. rewrite Hfit. cbn [bind]. simpl Z.eqb. cbv iota.
  unfold Estimator.refit_limits.
  rewrite (wr_Done "vh_mins" a 0) by lia. cbn [bind].
  rewrite (wr_Done "vh_maxs" b 0) by lia. cbn [bind].
  rewrite rd_outside by (rewrite upd_length; lia). reflexivity.
Qed.

End FitStage.

Lemma X6_unconverged_fit_keeps_no_candidate_witness :
  exists m,
    @Estimator.find_maxima Example.unfitted Example2.cluster_heights 50 250 30 2 = Done m
    /\ @Estimator.fit_candidates Example.unfitted 50 250 30 10 m
         (Example.zeros 10) (Example.zeros 10) (Example.zeros 10)
       = Done (0, (Example.zeros 10, Example.zeros 10, Example.zeros 10)).
Proof.
  assert (Hm : exists m r,
             @Estimator.find_maxima Example.unfitted Example2.cluster_heights 50 250 30 2
             = Done m
             /\ @Estimator.fit_candidates Example.unfitted 50 250 30 10 m
                  (Example.zeros 10) (Example.zeros 10) (Example.zeros 10) = Done r).
  { eexists. eexists. split; [vm_compute; reflexivity|]. vm_compute; reflexivity. }
  destruct Hm as (m & r & Hm & Hr). exists m. split; [exact Hm|].
  rewrite Hr. f_equal.
  apply (@X6_unconverged_fit_keeps_no_candidate Example.unfitted 50 250 30 10 m
           (Example.zeros 10) (Example.zeros 10) (Example.zeros 10) r);
    [intros; simpl; lia | exact Hr].
Defined.

Lemma X8_fallback_after_fit_reads_past_arrays_witness :
  @Estimator.select_alt_groups Example.unfitted Example2.cluster_heights 50 250 30 2 10
    5%nat (Example.zeros 10) (Example.zeros 10)
  = OutOfBounds "vh_maxs" 10.
Proof.
  assert (Hm : exists m,
             @Estimator.find_maxima Example.unfitted Example2.cluster_heights 50 250 30 2
             = Done m
             /\ Estimator.nmax m <> 0
             /\ Estimator.nbin m = 10
             /\ @Estimator.fit_candidates Example.unfitted 50 250 30 10 m
                  (Example.zeros 10) (Example.zeros 10) (calloc 0%Q 10)
                = Done (0, (Example.zeros 10, Example.zeros 10, Example.zeros 10))).
  { eexists. split; [vm_compute; reflexivity|]. split; [vm_compute; discriminate|].
    split; [reflexivity|]. vm_compute; reflexivity. }
  destruct Hm as (m & Hm & Hn & Hb & Hfit).
  rewrite <- Hb.
  apply (@X8_fallback_after_fit_reads_past_arrays Example.unfitted
           Example2.cluster_heights 50 250 30 2 10 5%nat m
           (Example.zeros 10) (Example.zeros 10)
           (Example.zeros 10) (Example.zeros 10) (Example.zeros 10) Hm Hn Hfit);
    try (simpl; lia).
Defined.

Section Fallback.

Variables (vh_min vh_max vh_box : Q).



End Fallback.


(** ** Further properties of sort_expand_boundaries (lines 307-518) *)




Lemma ceil_ge (a : Q) : (a <= ceil a)%Q.
Proof. apply Qle_ceiling. Qed.



Lemma append_Done (l : Reconciler.locals) (lo hi pk : Q) (pr : Z) :
  0 <= Reconciler.inew l ->
  holds (Reconciler.inew l + 1) l ->
  Reconciler.append l lo hi pk pr
  = Done (Reconciler.Locals
            (upd (Reconciler.new_mins l) (Z.to_nat (Reconciler.inew l)) lo)
            (upd (Reconciler.new_maxs l) (Z.to_nat (Reconciler.inew l)) hi)
            (upd (Reconciler.new_peaks l) (Z.to_nat (Reconciler.inew l)) pk)
            (upd (Reconciler.priority l) (Z.to_nat (Reconciler.inew l)) pr)
            (Reconciler.inew l + 1)).
Proof.
  intros H0 (H1 & H2 & H3 & H4). unfold Reconciler.append.
  rewrite !wr_Done by lia. reflexivity.
Qed.

Lemma append_no_exit (l : Reconciler.locals) (lo hi pk : Q) (pr : Z) (msg : string) :
  Reconciler.append l lo hi pk pr <> Exit msg.
Proof.
  unfold Reconciler.append.
  destruct (wr "new_mins" _ _ _) eqn:E1; cbn [bind]; try discriminate;
    [|exfalso; exact (wr_no_exit _ _ _ _ _ E1)].
  destruct (wr "new_maxs" _ _ _) eqn:E2; cbn [bind]; try discriminate;
    [|exfalso; exact (wr_no_exit _ _ _ _ _ E2)].
  destruct (wr "new_peaks" _ _ _) eqn:E3; cbn [bind]; try discriminate;
    [|exfalso; exact (wr_no_exit _ _ _ _ _ E3)].
  destruct (wr "priority" _ _ _) eqn:E4; cbn [bind]; try discriminate.
  exfalso; exact (wr_no_exit _ _ _ _ _ E4).
Qed.

Section LowerRange.

Variables (num max_vbin : Z) (local_min vh_min vh_box : Q).







End LowerRange.




Section GapAndTop.

Variables (num max_vbin : Z) (local_max vh_max vh_box : Q).



Lemma gap_fill_no_exit (vspan : Q) (msg : string) :
  forall (n : nat) (l : Reconciler.locals),
    Reconciler.gap_fill num vspan n l <> Exit msg.
Proof.
  intros n. induction n as [|n IH]; intros l; [discriminate|].
  cbn [Reconciler.gap_fill].
  destruct (rd "new_maxs" _ _) eqn:E1; cbn [bind]; try discriminate;
    [|exfalso; exact (rd_no_exit _ _ _ _ E1)].
  destruct (Reconciler.append _ _ _ _ _) eqn:E2; cbn [bind]; try discriminate;
    [apply IH | exfalso; exact (append_no_exit _ _ _ _ _ _ E2)].
Qed.

Lemma upper_fill_no_exit (vspan : Q) (msg : string) :
  forall (n : nat) (l : Reconciler.locals),
    Reconciler.upper_fill num vh_max vspan n l <> Exit msg.
Proof.
  intros n. induction n as [|n IH]; intros l; [discriminate|].
  cbn [Reconciler.upper_fill].
  destruct (rd "new_maxs" _ _) eqn:E1; cbn [bind]; try discriminate;
    [|exfalso; exact (rd_no_exit _ _ _ _ E1)].
  destruct (flt a vh_max); [|discriminate].
  destruct (Reconciler.append _ _ _ _ _) eqn:E2; cbn [bind]; try discriminate;
    [apply IH | exfalso; exact (append_no_exit _ _ _ _ _ _ E2)].
Qed.

Lemma set_last_max_no_exit (l : Reconciler.locals) (v : Q) (msg : string) :
  Reconciler.set_last_max l v <> Exit msg.
Proof.
  unfold Reconciler.set_last_max.
  destruct (wr "new_maxs" _ _ _) eqn:E1; cbn [bind]; try discriminate.
  exfalso; exact (wr_no_exit _ _ _ _ _ E1).
Qed.


(** X13.  The bridging of a gap and the pass above the last interval hold
    no capacity test: whatever the state, neither ends with a fatal
    message; a filler beyond [max_vbin] is written outside the arrays
    instead. *)
Theorem X13_fillers_above_are_never_fatal
  (vspan : Q) (n : nat) (l : Reconciler.locals) (msg : string) :
  Reconciler.gap_fill num vspan n l <> Exit msg
  /\ Reconciler.upper_range num local_max vh_max vh_box l <> Exit msg.
Proof.
  split; [apply gap_fill_no_exit|].
  unfold Reconciler.upper_range.
  destruct (num =? 0); cbn [bind].
  - destruct (rd "new_maxs" _ _) eqn:E1; cbn [bind]; try discriminate;
      [|exfalso; exact (rd_no_exit _ _ _ _ E1)].
    destruct (_ =? 0).
    + destruct (Reconciler.set_last_max l _) eqn:E2; cbn [bind]; try discriminate;
        [|exfalso; exact (set_last_max_no_exit _ _ _ E2)].
      destruct (flt _ _); [apply set_last_max_no_exit | discriminate].
    + apply upper_fill_no_exit.
  - destruct (rd "new_maxs" _ _) eqn:E0; cbn [bind]; try discriminate;
      [|exfalso; exact (rd_no_exit _ _ _ _ E0)].
    destruct (flt a local_max); [|discriminate].
    destruct (_ =? 0).
    + destruct (Reconciler.set_last_max l _) eqn:E2; cbn [bind]; try discriminate;
        [|exfalso; exact (set_last_max_no_exit _ _ _ E2)].
      destruct (flt _ _); [apply set_last_max_no_exit | discriminate].
    + apply upper_fill_no_exit.
Qed.

End GapAndTop.


Section UpperRange.

Variables (num max_vbin : Z) (local_max vh_max vh_box : Q).



End UpperRange.


Lemma copy_back_spec (l : Reconciler.locals) :
  forall (n : nat) (i : Z) (vh_mins vh_maxs vh_peaks : list Q),
    0 <= i ->
    holds (i + Z.of_nat n) l ->
    i + Z.of_nat n <= Z.of_nat (List.length vh_mins) ->
    i + Z.of_nat n <= Z.of_nat (List.length vh_maxs) ->
    i + Z.of_nat n <= Z.of_nat (List.length vh_peaks) ->
    exists mins maxs peaks,
      Reconciler.copy_back n i l vh_mins vh_maxs vh_peaks = Done (mins, maxs, peaks)
      /\ (forall k, i <= k < i + Z.of_nat n ->
            at_index mins k = at_index (Reconciler.new_mins l) k
            /\ at_index maxs k = at_index (Reconciler.new_maxs l) k
            /\ at_index peaks k = at_index (Reconciler.new_peaks l) k)
      /\ (forall k, 0 <= k -> k < i \/ i + Z.of_nat n <= k ->
            at_index mins k = at_index vh_mins k
            /\ at_index maxs k = at_index vh_maxs k
            /\ at_index peaks k = at_index vh_peaks k).
Proof.
  intros n. induction n as [|n IH]; intros i a b p Hi Hholds Ha Hb Hp.
  - exists a, b, p. split; [reflexivity|]. split; [intros; lia | auto].
  - cbn [Reconciler.copy_back]. destruct Hholds as (H1 & H2 & H3 & H4).
    rewrite (rd_nth "new_mins" _ i 0%Q) by lia. cbn [bind].
    rewrite (wr_Done "vh_mins" a i) by lia. cbn [bind].
    rewrite (rd_nth "new_maxs" _ i 0%Q) by lia. cbn [bind].
    rewrite (wr_Done "vh_maxs" b i) by lia. cbn [bind].
    rewrite (rd_nth "new_peaks" _ i 0%Q) by lia. cbn [bind].
    rewrite (wr_Done "vh_peaks" p i) by lia. cbn [bind].
    match goal with
    | |- context [Reconciler.copy_back _ _ _ ?a1 ?b1 ?p1] =>
        destruct (IH (i + 1) a1 b1 p1) as (mins & maxs & peaks & Hrun & Hnew & Hkeep);
        try (rewrite upd_length); try lia; [unfold holds; lia|]
    end.
    exists mins, maxs, peaks. split; [exact Hrun|]. split.
    + intros k Hk. destruct (Z.eq_dec k i) as [->|Hne]; [|apply Hnew; lia].
      destruct (Hkeep i ltac:(lia) ltac:(lia)) as (K1 & K2 & K3).
      rewrite K1, K2, K3. rewrite !at_index_upd_eq by lia.
      unfold at_index. repeat split; symmetry; apply nth_error_nth'; lia.
    + intros k Hk0 Hk. destruct (Hkeep k Hk0 ltac:(lia)) as (K1 & K2 & K3).
      rewrite K1, K2, K3. repeat split; apply at_index_upd_neq; lia.
Qed.

(** X15.  Lines 503-508 overwrite the first [n] entries of the three
    arrays of the caller with the local intervals and leave the entries
    from [n] on as they were, so that candidates stored there remain. *)
Theorem X15_copy_back_overwrites_a_prefix
  (l : Reconciler.locals) (n : nat) (vh_mins vh_maxs vh_peaks : list Q) :
  holds (Z.of_nat n) l ->
  Z.of_nat n <= Z.of_nat (List.length vh_mins) ->
  Z.of_nat n <= Z.of_nat (List.length vh_maxs) ->
  Z.of_nat n <= Z.of_nat (List.length vh_peaks) ->
  copied (Z.of_nat n) l vh_mins vh_maxs vh_peaks
    (Reconciler.copy_back n 0 l vh_mins vh_maxs vh_peaks).
Proof.
  intros Hholds Ha Hb Hp.
  destruct (copy_back_spec l n 0 vh_mins vh_maxs vh_peaks)
    as (mins & maxs & peaks & Hrun & Hnew & Hkeep); try lia; [exact Hholds|].
  exists mins, maxs, peaks. split; [exact Hrun|]. split.
  - intros k Hk. apply Hnew. lia.
  - intros k Hk. apply Hkeep; lia.
Qed.

Lemma X15_copy_back_overwrites_a_prefix_witness :
  copied (Z.of_nat 1) Example2.one_stored (Example.pad 10 [100; 200]%Q)
    (Example.pad 10 [110; 230]%Q) (Example.pad 10 [105; 215]%Q)
    (Reconciler.copy_back 1 0 Example2.one_stored (Example.pad 10 [100; 200]%Q)
       (Example.pad 10 [110; 230]%Q) (Example.pad 10 [105; 215]%Q)).
Proof.
  apply X15_copy_back_overwrites_a_prefix;
    try (vm_compute; intuition congruence).
Defined.

Section Capacity.

Variables (num max_vbin : Z) (vh_box : Q) (sortargs : list Z)
  (vh_mins vh_maxs vh_peaks : list Q).

(** X16.  A candidate loop that runs at least one turn and ends leaves
    fewer than [max_vbin] intervals: the test of line 463 is [>=], so that
    a list of exactly [max_vbin] intervals is fatal too. *)
Theorem X16_candidate_loop_ends_below_capacity
  (fuel : nat) (i : Z) (l l' : Reconciler.locals) :
  i < num ->
  Reconciler.merge_loop num max_vbin vh_box sortargs vh_mins vh_maxs vh_peaks fuel i l
  = Done l' ->
  Reconciler.inew l' < max_vbin.
Proof.
  revert i l. induction fuel as [|fuel IH]; intros i l Hi Hrun.
  - simpl in Hrun. destruct (Z.ltb_spec i num); [discriminate | lia].
  - cbn [Reconciler.merge_loop] in Hrun.
    destruct (Z.ltb_spec i num); [|lia].
    destruct (Reconciler.merge_body _ _ _ _ _ _ _ _) as [[i1 l1]| | |];
      cbn [bind] in Hrun; try discriminate.
    destruct (Z.geb_spec (Reconciler.inew l1) max_vbin); [discriminate|].
    destruct (Z.ltb_spec (i1 + 1) num) as [Hmore|Hlast].
    + exact (IH (i1 + 1) l1 Hmore Hrun).
    + assert (Hdone : (i1 + 1 <? num) = false) by (apply Z.ltb_ge; lia).
      rewrite (merge_loop_finished num max_vbin vh_box sortargs vh_mins vh_maxs
                 vh_peaks fuel (i1 + 1) l1 Hdone) in Hrun.
      inversion Hrun; subst. lia.
Qed.

End Capacity.

Lemma X16_candidate_loop_ends_below_capacity_witness :
  exists l',
    Reconciler.merge_loop 2 10 30 [0; 1] (Example.pad 10 [100; 125]%Q)
      (Example.pad 10 [130; 160]%Q) (Example.pad 10 [115; 140]%Q) 5 0
      (Example2.fresh 10) = Done l'
    /\ Reconciler.inew l' < 10.
Proof.
  assert (Hrun : exists l',
             Reconciler.merge_loop 2 10 30 [0; 1] (Example.pad 10 [100; 125]%Q)
               (Example.pad 10 [130; 160]%Q) (Example.pad 10 [115; 140]%Q) 5 0
               (Example2.fresh 10) = Done l').
  { eexists. vm_compute. reflexivity. }
  destruct Hrun as (l' & Hrun). exists l'. split; [exact Hrun|].
  apply (X16_candidate_loop_ends_below_capacity 2 10 30 [0; 1]
           (Example.pad 10 [100; 125]%Q) (Example.pad 10 [130; 160]%Q)
           (Example.pad 10 [115; 140]%Q) 5 0 (Example2.fresh 10) l');
    [lia | exact Hrun].
Defined.

Section LoneCandidate.

Context {C : Collaborators}.
Variables (max_vbin : Z) (local_min local_max vh_min vh_max vh_box : Q).

(** X17.  One candidate [lo, hi] with [lo < hi] that covers the observed
    range, [lo <= local_min] and [local_max <= hi], is returned alone and
    rounded outwards, as [floor lo, ceil hi] with its peak, when
    [max_vbin] is 2 or more; the bounds are not clamped to
    [vh_min, vh_max] again.  With [max_vbin = 1] the run ends with the
    fatal capacity message, although one interval is all there is. *)
Theorem X17_lone_candidate_rounded_outwards
  (fuel : nat) (vh_mins vh_maxs vh_peaks : list Q) (lo hi pk : Q) :
  at_index (smart_argsort_float 1 vh_mins) 0 = Some 0 ->
  at_index vh_mins 0 = Some lo ->
  at_index vh_maxs 0 = Some hi ->
  at_index vh_peaks 0 = Some pk ->
  (lo <= local_min)%Q ->
  (local_max <= hi)%Q ->
  (lo < hi)%Q ->
  1 <= max_vbin ->
  Reconciler.sort_expand_boundaries 1 max_vbin local_min local_max vh_min vh_max
    vh_box (S fuel) vh_mins vh_maxs vh_peaks
  = if 1 >=? max_vbin then Exit Reconciler.capacity_msg
    else Done (1, (upd vh_mins 0 (floor lo), upd vh_maxs 0 (ceil hi),
                   upd vh_peaks 0 pk)).
Proof.
  intros Hsort Hlo Hhi Hpk Hcover_lo Hcover_hi Hwidth Hone.
  assert (Hbody : 1 <= max_vbin ->
    Reconciler.sort_expand_boundaries 1 max_vbin local_min local_max vh_min vh_max
      vh_box (S fuel) vh_mins vh_maxs vh_peaks
    = (let l1 := Reconciler.Locals
                   (upd (calloc 0%Q max_vbin) 0 (floor lo))
                   (upd (calloc 0%Q max_vbin) 0 (ceil hi))
                   (upd (calloc 0%Q max_vbin) 0 pk)
                   (upd (calloc 0 max_vbin) 0 0) 1 in
       if 1 >=? max_vbin then Exit Reconciler.capacity_msg
       else l3 <- Reconciler.upper_range 1 local_max vh_max vh_box l1 ;;
            out <- Reconciler.copy_back (Z.to_nat (Reconciler.inew l3)) 0 l3
                     vh_mins vh_maxs vh_peaks ;;
            Done (Reconciler.inew l3, out))).
  { intros Hcap. unfold Reconciler.sort_expand_boundaries.
    change (1 =? 0) with false. cbv iota.
    unfold Reconciler.lower_range.
    rewrite (rd_Done "sortargs" _ 0 0) by (auto; lia). cbn [bind].
    rewrite (rd_Done "vh_mins" vh_mins 0 lo) by (auto; lia). cbn [bind].
    assert (E1 : flt local_min lo = false) by (apply flt_false_iff; exact Hcover_lo).
    rewrite E1. cbn [bind].
    cbn [Reconciler.merge_loop]. change (0 <? 1) with true. cbv iota.
    unfold Reconciler.merge_body.
    rewrite (rd_Done "sortargs" _ 0 0) by (auto; lia). cbn [bind].
    rewrite (rd_Done "vh_mins" vh_mins 0 lo) by (auto; lia). cbn [bind].
    cbn [Reconciler.inew]. change (0 >? 0) with false. cbv iota.
    rewrite (rd_Done "vh_maxs" vh_maxs 0 hi) by (auto; lia). cbn [bind].
    assert (E2 : flt lo hi = true) by (apply flt_iff; exact Hwidth).
    rewrite E2.
    rewrite (rd_Done "vh_peaks" vh_peaks 0 pk) by (auto; lia). cbn [bind].
    rewrite append_Done
      by (try (unfold holds); simpl; rewrite ?calloc_length; lia).
    cbn [bind Reconciler.inew Reconciler.new_mins Reconciler.new_maxs
         Reconciler.new_peaks Reconciler.priority].
    change (Z.to_nat 0) with 0%nat. change (0 + 1) with 1.
    destruct (1 >=? max_vbin); [reflexivity|].
    rewrite merge_loop_finished by reflexivity. cbn [bind]. reflexivity. }
  assert (Hlen : forall (A : Type) (a : list A) (v : A),
             at_index a 0 = Some v -> 0 < Z.of_nat (List.length a)).
  { intros A a v Hv. destruct a; [discriminate | simpl; lia]. }
  rewrite Hbody by lia. cbv zeta.
  destruct (Z.geb_spec 1 max_vbin); [reflexivity|].
  {
    assert (Hpos : (0 < Z.to_nat max_vbin)%nat) by lia.
    unfold Reconciler.upper_range. change (1 =? 0) with false. cbv iota.
    cbn [bind Reconciler.inew Reconciler.new_maxs]. change (1 - 1) with 0.
    rewrite (rd_Done "new_maxs" _ 0 (ceil hi))
      by (try lia; apply (at_index_upd_eq (calloc 0%Q max_vbin) 0);
          rewrite calloc_length; lia).
    cbn [bind].
    assert (E3 : flt (ceil hi) local_max = false).
    { apply flt_false_iff. pose proof (ceil_ge hi). lra. }
    rewrite E3. cbn [bind Reconciler.inew]. change (Z.to_nat 1) with 1%nat.
    cbn [Reconciler.copy_back Reconciler.new_mins Reconciler.new_maxs
         Reconciler.new_peaks].
    rewrite (rd_Done "new_mins" _ 0 (floor lo))
      by (try lia; apply (at_index_upd_eq (calloc 0%Q max_vbin) 0);
          rewrite calloc_length; lia).
    cbn [bind].
    rewrite (wr_Done "vh_mins" vh_mins 0) by (pose proof (Hlen _ _ _ Hlo); lia).
    cbn [bind].
    rewrite (rd_Done "new_maxs" _ 0 (ceil hi))
      by (try lia; apply (at_index_upd_eq (calloc 0%Q max_vbin) 0);
          rewrite calloc_length; lia).
    cbn [bind].
    rewrite (wr_Done "vh_maxs" vh_maxs 0) by (pose proof (Hlen _ _ _ Hhi); lia).
    cbn [bind].
    rewrite (rd_Done "new_peaks" _ 0 pk)
      by (try lia; apply (at_index_upd_eq (calloc 0%Q max_vbin) 0);
          rewrite calloc_length; lia).
    cbn [bind].
    rewrite (wr_Done "vh_peaks" vh_peaks 0) by (pose proof (Hlen _ _ _ Hpk); lia).
    cbn [bind]. reflexivity. }
Qed.

End LoneCandidate.

Lemma X17_lone_candidate_rounded_outwards_witness :
  @Reconciler.sort_expand_boundaries 1 10 100 200 50 250 30 Example.unfitted 1%nat
    (Example.pad 10 [99.5%Q]) (Example.pad 10 [200.5%Q]) (Example.pad 10 [150%Q])
  = Done (1, (upd (Example.pad 10 [99.5%Q]) 0 (floor 99.5),
              upd (Example.pad 10 [200.5%Q]) 0 (ceil 200.5),
              upd (Example.pad 10 [150%Q]) 0 150%Q)).
Proof.
  apply (@X17_lone_candidate_rounded_outwards Example.unfitted 10 100 200 50 250 30
           0%nat (Example.pad 10 [99.5%Q]) (Example.pad 10 [200.5%Q])
           (Example.pad 10 [150%Q]) 99.5 200.5 150);
    try reflexivity; try (vm_compute; intuition congruence).
Defined.

(** ** Further properties of the input of the fit (lines 154-187) *)

Lemma skipn_upd_after {A : Type} (a : list A) (k n : nat) (v : A) :
  (k < n)%nat -> skipn n (upd a k v) = skipn n a.
Proof.
  revert k n; induction a as [|h t IH]; intros [|k] [|n] Hk; simpl; try lia; auto.
  apply IH. lia.
Qed.

Lemma overwrite_nil {A : Type} (a : list A) (j : nat) : overwrite a j [] = a.
Proof.
  unfold overwrite. simpl. rewrite Nat.add_0_r. apply firstn_skipn.
Qed.

Lemma overwrite_upd_cons {A : Type} (a : list A) (j : nat) (v : A) (l : list A) :
  (j < List.length a)%nat ->
  overwrite (upd a j v) (S j) l = overwrite a j (v :: l).
Proof.
  intros Hj. unfold overwrite.
  rewrite firstn_upd_snoc by exact Hj.
  rewrite skipn_upd_after by lia.
  rewrite <- app_assoc. simpl. rewrite Nat.add_succ_r. reflexivity.
Qed.

Lemma overwrite_length {A : Type} (a : list A) (j : nat) (l : list A) :
  (j + List.length l <= List.length a)%nat ->
  List.length (overwrite a j l) = List.length a.
Proof.
  intros H. unfold overwrite.
  rewrite !length_app, length_firstn, length_skipn. lia.
Qed.

Section FitInput.

Variable m : Estimator.maxima.


Lemma cast_bins_spec (hist_width : Q) :
  forall (n : nat) (i : Z) (x y : list Q),
    0 <= i ->
    i + Z.of_nat n <= Z.of_nat (List.length (Estimator.hist_edges m)) ->
    i + Z.of_nat n <= Z.of_nat (List.length (Estimator.hist_bins m)) ->
    i + Z.of_nat n <= Z.of_nat (List.length x) ->
    i + Z.of_nat n <= Z.of_nat (List.length y) ->
    Estimator.cast_bins m hist_width n i x y
    = Done (overwrite x (Z.to_nat i)
              (map (fun k => (nth (Z.to_nat k) (Estimator.hist_edges m) 0 + hist_width)%Q)
                 (indices i n)),
            overwrite y (Z.to_nat i)
              (map (fun k => inject_Z (count_of m k)) (indices i n))).
Proof.
  induction n as [|n IH]; intros i x y Hi He Hb Hx Hy.
  - simpl. rewrite !overwrite_nil. reflexivity.
  - cbn [Estimator.cast_bins].
    rewrite (rd_nth "hist_edges" _ i 0%Q) by lia. cbn [bind].
    rewrite (wr_Done "x" x i) by lia. cbn [bind].
    rewrite (rd_nth "hist_bins" _ i 0) by lia. cbn [bind].
    rewrite (wr_Done "y" y i) by lia. cbn [bind].
    rewrite IH by (rewrite ?upd_length; lia).
    replace (Z.to_nat (i + 1)) with (S (Z.to_nat i)) by lia.
    rewrite !overwrite_upd_cons by lia. reflexivity.
Qed.

Lemma seed_params_spec (vh_box : Q) (x : list Q) (argmax valmax : list Z) :
  forall (n : nat) (j : Z) (params : list Q),
    0 <= j ->
    1 + 3 * (j + Z.of_nat n) <= Z.of_nat (List.length params) ->
    j + Z.of_nat n <= Z.of_nat (List.length valmax) ->
    j + Z.of_nat n <= Z.of_nat (List.length argmax) ->
    (forall k, j <= k < j + Z.of_nat n ->
       0 <= nth (Z.to_nat k) argmax 0 < Z.of_nat (List.length x)) ->
    Estimator.seed_params vh_box x argmax valmax n j params
    = Done (overwrite params (Z.to_nat (1 + j * 3))
              (concat (map (first_guess vh_box x argmax valmax) (indices j n)))).
Proof.
  induction n as [|n IH]; intros j params Hj Hp Hv Ha Hx.
  - simpl. rewrite overwrite_nil. reflexivity.
  - cbn [Estimator.seed_params].
    rewrite (rd_nth "valmax" _ j 0) by lia. cbn [bind].
    rewrite (wr_Done "params" params (1 + j * 3)) by lia. cbn [bind].
    rewrite (rd_nth "argmax" _ j 0) by lia. cbn [bind].
    rewrite (rd_nth "x" x _ 0%Q) by (apply Hx; lia). cbn [bind].
    rewrite (wr_Done "params" _ (2 + j * 3)) by (rewrite upd_length; lia).
    cbn [bind].
    rewrite (wr_Done "params" _ (3 + j * 3)) by (rewrite !upd_length; lia).
    cbn [bind].
    rewrite IH; try (rewrite !upd_length); try lia;
      [|intros k Hk; apply Hx; lia].
    cbn [indices map concat]. unfold first_guess at 2. cbn [app].
    replace (Z.to_nat (1 + (j + 1) * 3)) with (S (Z.to_nat (3 + j * 3))) by lia.
    rewrite overwrite_upd_cons by (rewrite !upd_length; lia).
    replace (Z.to_nat (3 + j * 3)) with (S (Z.to_nat (2 + j * 3))) by lia.
    rewrite overwrite_upd_cons by (rewrite !upd_length; lia).
    replace (Z.to_nat (2 + j * 3)) with (S (Z.to_nat (1 + j * 3))) by lia.
    rewrite overwrite_upd_cons by lia.
    reflexivity.
Qed.

Lemma skipn_repeat_zero {A : Type} (v : A) : forall (n k : nat),
  skipn k (repeat v n) = repeat v (n - k).
Proof.
  induction n as [|n IH]; intros [|k]; simpl; auto.
Qed.

Lemma indices_length : forall (n : nat) (i : Z), List.length (indices i n) = n.
Proof.
  induction n as [|n IH]; intros i; simpl; auto.
Qed.


(** X19.  The loop of lines 171-176 gives the solver, for each of the
    [nbin] bins, the lower edge of the bin moved up by [hist_width] as [x]
    and the count of the bin as [y], and nothing else. *)
Theorem X19_solver_sees_shifted_edges_and_counts (hist_width : Q) :
  0 <= Estimator.nbin m <= Z.of_nat (List.length (Estimator.hist_edges m)) ->
  Estimator.nbin m <= Z.of_nat (List.length (Estimator.hist_bins m)) ->
  Estimator.cast_bins m hist_width (Z.to_nat (Estimator.nbin m)) 0
    (calloc 0%Q (Estimator.nbin m)) (calloc 0%Q (Estimator.nbin m))
  = Done (map (fun k => (nth (Z.to_nat k) (Estimator.hist_edges m) 0 + hist_width)%Q)
            (indices 0 (Z.to_nat (Estimator.nbin m))),
          map (fun k => inject_Z (count_of m k))
            (indices 0 (Z.to_nat (Estimator.nbin m)))).
Proof.
  intros Hedges Hbins.
  rewrite cast_bins_spec by (rewrite ?calloc_length; lia).
  unfold overwrite, calloc. simpl.
  rewrite !skipn_repeat_zero, !length_map, indices_length, Nat.sub_diag.
  simpl. rewrite !app_nil_r. reflexivity.
Qed.

End FitInput.

(** X20.  The loop of lines 182-187 leaves [params[0]] as it was and sets,
    for each of the [nmax] maxima in turn, the three entries: the count
    [valmax[j]] as amplitude, the entry [x[argmax[j]]] as centre, and half
    the suggested width as standard deviation. *)
Theorem X20_first_guess_of_each_gaussian
  (vh_box : Q) (x : list Q) (argmax valmax : list Z) (nmax : Z) (params : list Q) :
  0 <= nmax ->
  Z.of_nat (List.length params) = 3 * nmax + 1 ->
  nmax <= Z.of_nat (List.length valmax) ->
  nmax <= Z.of_nat (List.length argmax) ->
  (forall k, 0 <= k < nmax ->
     0 <= nth (Z.to_nat k) argmax 0 < Z.of_nat (List.length x)) ->
  Estimator.seed_params vh_box x argmax valmax (Z.to_nat nmax) 0 params
  = Done (firstn 1 params
          ++ concat (map (first_guess vh_box x argmax valmax)
                       (indices 0 (Z.to_nat nmax))))%list.
Proof.
  intros Hn Hp Hv Ha Hx.
  rewrite seed_params_spec; try lia; [|intros k Hk; apply Hx; lia].
  unfold overwrite. change (Z.to_nat (1 + 0 * 3)) with 1%nat.
  rewrite skipn_all2; [rewrite app_nil_r; reflexivity|].
  assert (Hlen : forall (n : nat) (j : Z),
             List.length (concat (map (first_guess vh_box x argmax valmax)
                                    (indices j n))) = (3 * n)%nat).
  { induction n as [|n IH]; intros j; [reflexivity|].
    cbn [indices map concat]. rewrite length_app, IH. simpl. lia. }
  rewrite Hlen. lia.
Qed.


Lemma X19_solver_sees_shifted_edges_and_counts_witness :
  Estimator.cast_bins Example2.two_maxima 5 4 0 (calloc 0%Q 4) (calloc 0%Q 4)
  = Done (map (fun k => (nth (Z.to_nat k) [0; 10; 20; 30; 40] 0 + 5)%Q) [0; 1; 2; 3],
          map (fun k => inject_Z (count_of Example2.two_maxima k)) [0; 1; 2; 3]).
Proof.
  apply (X19_solver_sees_shifted_edges_and_counts Example2.two_maxima 5);
    vm_compute; intuition congruence.
Defined.

Lemma X20_first_guess_of_each_gaussian_witness :
  Estimator.seed_params 30 [5; 15; 25; 35]%Q [1; 3] [5; 6] (Z.to_nat 2) 0
    (2%Q :: Example.zeros 6)
  = Done (firstn 1 (2%Q :: Example.zeros 6)
          ++ concat (map (first_guess 30 [5; 15; 25; 35]%Q [1; 3] [5; 6])
                       (indices 0 (Z.to_nat 2))))%list.
Proof.
  apply (X20_first_guess_of_each_gaussian 30 [5; 15; 25; 35]%Q [1; 3] [5; 6] 2
           (2%Q :: Example.zeros 6)); try (vm_compute; intuition congruence).
  intros k Hk. assert (Hcase : k = 0 \/ k = 1) by lia.
  destruct Hcase as [-> | ->]; vm_compute; intuition congruence.
Defined.

(** ** The remaining turns of the candidate loop and the short lower range *)



Section OtherTurns.

Variables (num : Z) (vh_box : Q) (sortargs : list Z) (vh_mins vh_maxs vh_peaks : list Q).

(** X21.  A candidate that starts at or below the upper bound of the last
    interval while neither peak lies in the other interval (the tests of
    lines 384-385 and 409 fail) is stored as it is, from its own lower
    bound [hmin] to [ceil hi]; the last interval is not cut.  When [hmin]
    is below that upper bound, the two intervals overlap in the result. *)
Theorem X21_mild_overlap_is_kept
  (i s : Z) (l : Reconciler.locals) (hmin pk hi last_max last_pk : Q) :
  0 <= i -> 0 <= s ->
  at_index sortargs i = Some s ->
  at_index vh_mins s = Some hmin ->
  at_index vh_peaks s = Some pk ->
  at_index vh_maxs s = Some hi ->
  0 < Reconciler.inew l ->
  at_index (Reconciler.new_maxs l) (Reconciler.inew l - 1) = Some last_max ->
  at_index (Reconciler.new_peaks l) (Reconciler.inew l - 1) = Some last_pk ->
  (last_max < pk)%Q ->
  (last_pk < hmin)%Q ->
  (hmin <= last_max)%Q ->
  (hmin < hi)%Q ->
  holds (Reconciler.inew l + 1) l ->
  stored_as_is l i s hmin hi last_max
    (Reconciler.merge_body num vh_box sortargs vh_mins vh_maxs vh_peaks i l).
Proof.
  intros Hi Hs Hsort Hmin Hpk Hhi Hinew Hlast Hlpk Hpeak Hapart Hmeet Hwidth Hholds.
  unfold stored_as_is, Reconciler.merge_body.
  rewrite (rd_Done "sortargs" sortargs i s) by auto. cbn [bind].
  rewrite (rd_Done "vh_mins" vh_mins s hmin) by auto. cbn [bind].
  destruct (Z.gtb_spec (Reconciler.inew l) 0); [|lia].
  rewrite (rd_Done "new_maxs" _ _ last_max) by (auto; lia). cbn [bind].
  rewrite (rd_Done "vh_peaks" vh_peaks s pk) by auto. cbn [bind].
  assert (E1 : fle pk last_max = false).
  { unfold fle. apply not_true_is_false. rewrite Qle_bool_iff. lra. }
  rewrite E1.
  rewrite (rd_Done "new_peaks" _ _ last_pk) by (auto; lia). cbn [bind].
  assert (E2 : fle hmin last_pk = false).
  { unfold fle. apply not_true_is_false. rewrite Qle_bool_iff. lra. }
  rewrite E2.
  assert (E3 : flt last_max hmin = false) by (apply flt_false_iff; exact Hmeet).
  rewrite E3.
  rewrite (rd_Done "vh_maxs" vh_maxs s hi) by auto. cbn [bind].
  assert (E4 : flt hmin hi = true) by (apply flt_iff; exact Hwidth).
  rewrite E4.
  destruct Hholds as (H1 & H2 & H3 & H4).
  rewrite append_Done by (unfold holds; lia). cbn [bind].
  eexists. split; [reflexivity|].
  cbn [Reconciler.inew Reconciler.new_mins Reconciler.new_maxs Reconciler.priority].
  assert (Hprev : at_index (upd (Reconciler.new_maxs l) (Z.to_nat (Reconciler.inew l))
                              (ceil hi)) (Reconciler.inew l - 1) = Some last_max).
  { rewrite at_index_upd_neq by lia. exact Hlast. }
  assert (Hnew : at_index (upd (Reconciler.new_mins l) (Z.to_nat (Reconciler.inew l))
                             hmin) (Reconciler.inew l) = Some hmin).
  { apply at_index_upd_eq. lia. }
  split; [reflexivity|]. split; [|split; [exact Hprev|split; [exact Hnew|split; [|split]]]].
  - intros k Hk.
    cbn [Reconciler.new_mins Reconciler.new_maxs Reconciler.priority].
    repeat split; apply at_index_upd_neq; lia.
  - apply at_index_upd_eq. lia.
  - apply at_index_upd_eq. lia.
  - intros Hstrict Hno.
    specialize (Hno (Reconciler.inew l - 1) hmin last_max).
    replace (Reconciler.inew l - 1 + 1) with (Reconciler.inew l) in Hno by lia.
    specialize (Hno ltac:(lia) Hprev Hnew). lra.
Qed.


End OtherTurns.


Lemma X21_mild_overlap_is_kept_witness :
  stored_as_is Example2.one_stored 1 1 108 140 110
    (Reconciler.merge_body 2 30 [0; 1] (Example.pad 10 [100; 108]%Q)
       (Example.pad 10 [110; 140]%Q) (Example.pad 10 [105; 125]%Q) 1
       Example2.one_stored).
Proof.
  apply (X21_mild_overlap_is_kept 2 30 [0; 1] (Example.pad 10 [100; 108]%Q)
           (Example.pad 10 [110; 140]%Q) (Example.pad 10 [105; 125]%Q)
           1 1 Example2.one_stored 108 125 140 110 105);
    try reflexivity; try (vm_compute; intuition congruence).
Defined.


